(** * Local Roboflow inference gateway: the /analyze and /validate handlers

    A shallow embedding of [local_modules/roboflow_local_service.py].  The
    two Flask handlers receive the decoded JSON request body, call the
    workflow client, and reshape the value it returns.  Everything they
    touch is a dynamically typed Python value decoded from JSON, so the
    embedding starts with those values and with the handful of Python
    operations the handlers apply to them ([.get], [in], subscripting,
    iteration, truth testing, [or], [max], [>] and [>=]).  An operation
    that raises in Python returns an exception value here; the handlers'
    [try ... except Exception] turns it into the 500 response. *)

From Stdlib Require Import ZArith List String Ascii Bool Lia.
From Stdlib Require Import Floats.SpecFloat.
From Stdlib Require Import Sorting.Permutation.
Import ListNotations.

Local Open Scope string_scope.
Local Open Scope Z_scope.

(** ** Python values *)

(** A [dict] keeps its insertion order (iteration and the rendered body
    follow it), hence the association list; keys are looked up by first
    match.  A [float] is an IEEE binary64 datum in the Standard Library's
    [spec_float] form; an [int] is unbounded.  A [str] is read as its
    sequence of code points. *)
#[warnings="-register-all"]
Inductive pyval : Type :=
| PNone
| PBool (b : bool)
| PInt (z : Z)
| PFloat (f : spec_float)
| PStr (s : string)
| PList (l : list pyval)
| PDict (d : list (string * pyval)).

Inductive pytype : Type :=
| TNoneType | TBool | TInt | TFloat | TStr | TList | TDict.

Definition type_of (v : pyval) : pytype :=
  match v with
  | PNone => TNoneType
  | PBool _ => TBool
  | PInt _ => TInt
  | PFloat _ => TFloat
  | PStr _ => TStr
  | PList _ => TList
  | PDict _ => TDict
  end.

Inductive cmp_op : Type := OpGt | OpGe.

(** The exceptions the handlers can meet.  The built-in ones record what
    CPython puts in their message (the types involved); [Raised] is any
    exception coming out of the request decoding or the workflow client,
    with its text. *)
Inductive pyexn : Type :=
| AttributeError (obj : pytype) (attr : string)
| TypeError_in (container : pytype)
| TypeError_subscript (obj : pytype) (key : pytype)
| TypeError_iter (obj : pytype)
| TypeError_order (op : cmp_op) (a b : pytype)
| KeyError (key : string)
| ValueError_max_empty
| Raised (text : string).

(** ** The error monad *)

Definition M (A : Type) : Type := (pyexn + A)%type.

Definition ret {A : Type} (a : A) : M A := inr a.
Definition raise {A : Type} (e : pyexn) : M A := inl e.
Definition bind {A B : Type} (c : M A) (k : A -> M B) : M B :=
  match c with
  | inl e => inl e
  | inr a => k a
  end.

Notation "x <- c ;; k" := (bind c (fun x => k))
  (at level 61, c at next level, right associativity).
Notation "' p <- c ;; k" := (bind c (fun x => let p := x in k))
  (at level 61, p pattern, c at next level, right associativity).

Fixpoint mapM {A B : Type} (f : A -> M B) (l : list A) : M (list B) :=
  match l with
  | [] => ret []
  | x :: xs => y <- f x ;; ys <- mapM f xs ;; ret (y :: ys)
  end.

(** ** Numbers

    [bool], [int] and [float] compare with one another by exact value; a
    NaN compares false with everything.  A finite number is held as
    [m * 2^e]. *)
Inductive xnum : Type :=
| XNaN
| XNegInf
| XFin (m e : Z)
| XPosInf.

Definition float_val (f : spec_float) : xnum :=
  match f with
  | S754_zero _ => XFin 0 0
  | S754_infinity s => if s then XNegInf else XPosInf
  | S754_nan => XNaN
  | S754_finite s m e => XFin (if s then Z.neg m else Z.pos m) e
  end.

Definition num_val (v : pyval) : option xnum :=
  match v with
  | PBool b => Some (XFin (if b then 1 else 0) 0)
  | PInt z => Some (XFin z 0)
  | PFloat f => Some (float_val f)
  | _ => None
  end.

Definition fin_compare (m1 e1 m2 e2 : Z) : comparison :=
  let k := Z.min e1 e2 in
  (m1 * 2 ^ (e1 - k) ?= m2 * 2 ^ (e2 - k)).

Definition xnum_compare (x y : xnum) : option comparison :=
  match x, y with
  | XNaN, _ | _, XNaN => None
  | XNegInf, XNegInf => Some Eq
  | XNegInf, _ => Some Lt
  | _, XNegInf => Some Gt
  | XPosInf, XPosInf => Some Eq
  | XPosInf, _ => Some Gt
  | _, XPosInf => Some Lt
  | XFin m1 e1, XFin m2 e2 => Some (fin_compare m1 e1 m2 e2)
  end.

Definition op_holds (op : cmp_op) (c : option comparison) : bool :=
  match op, c with
  | OpGt, Some Gt => true
  | OpGe, Some Gt => true
  | OpGe, Some Eq => true
  | _, _ => false
  end.

(** ** Built-in operations *)

Fixpoint dict_get (k : string) (d : list (string * pyval)) : option pyval :=
  match d with
  | [] => None
  | (k', v) :: d' => if String.eqb k k' then Some v else dict_get k d'
  end.

(** [bool(v)]. *)
Definition truthy (v : pyval) : bool :=
  match v with
  | PNone => false
  | PBool b => b
  | PInt z => negb (z =? 0)
  | PFloat (S754_zero _) => false
  | PFloat _ => true
  | PStr s => negb (String.eqb s "")
  | PList l => match l with [] => false | _ => true end
  | PDict d => match d with [] => false | _ => true end
  end.

(** [a == b]; it never raises on these values.  (CPython also takes two
    references to one object as equal inside containers; that only shows
    for a NaN held in a list or dict.) *)
Fixpoint py_eq (a b : pyval) : bool :=
  match a, b with
  | PNone, PNone => true
  | PStr s, PStr t => String.eqb s t
  | PList l, PList l' =>
      (fix go (l l' : list pyval) : bool :=
         match l, l' with
         | [], [] => true
         | x :: xs, y :: ys => py_eq x y && go xs ys
         | _, _ => false
         end) l l'
  | PDict d, PDict d' =>
      Nat.eqb (List.length d) (List.length d') &&
      (fix go (d : list (string * pyval)) : bool :=
         match d with
         | [] => true
         | (k, v) :: r =>
             match dict_get k d' with
             | Some v' => py_eq v v'
             | None => false
             end && go r
         end) d
  | _, _ =>
      match num_val a, num_val b with
      | Some x, Some y =>
          match xnum_compare x y with Some Eq => true | _ => false end
      | _, _ => false
      end
  end.

(** [a > b] and [a >= b]: numbers by value, strings and lists
    lexicographically, anything else a [TypeError]. *)
Fixpoint py_compare (op : cmp_op) (a b : pyval) : M bool :=
  match a, b with
  | PStr s, PStr t => ret (op_holds op (Some (String.compare s t)))
  | PList l, PList l' =>
      (fix go (l l' : list pyval) : M bool :=
         match l, l' with
         | x :: xs, y :: ys => if py_eq x y then go xs ys else py_compare op x y
         | _, _ => ret (op_holds op (Some (Nat.compare (List.length l) (List.length l'))))
         end) l l'
  | _, _ =>
      match num_val a, num_val b with
      | Some x, Some y => ret (op_holds op (xnum_compare x y))
      | _, _ => raise (TypeError_order op (type_of a) (type_of b))
      end
  end.

(** [obj.get(key, default)]: only a dict has the method. *)
Definition py_get (obj : pyval) (key : string) (default : pyval) : M pyval :=
  match obj with
  | PDict d =>
      ret (match dict_get key d with Some v => v | None => default end)
  | _ => raise (AttributeError (type_of obj) "get")
  end.

(** [a or b], with [b] evaluated only when [a] is falsy. *)
Definition py_or (a : pyval) (b : M pyval) : M pyval :=
  if truthy a then ret a else b.

Fixpoint is_substring (k s : string) : bool :=
  String.prefix k s ||
  match s with
  | EmptyString => false
  | String _ s' => is_substring k s'
  end.

(** [key in obj] for a string key. *)
Definition py_in (key : string) (obj : pyval) : M bool :=
  match obj with
  | PDict d => ret (match dict_get key d with Some _ => true | None => false end)
  | PList l => ret (existsb (py_eq (PStr key)) l)
  | PStr s => ret (is_substring key s)
  | _ => raise (TypeError_in (type_of obj))
  end.

(** [obj[key]] for a string key. *)
Definition py_getitem (obj : pyval) (key : string) : M pyval :=
  match obj with
  | PDict d =>
      match dict_get key d with
      | Some v => ret v
      | None => raise (KeyError key)
      end
  | _ => raise (TypeError_subscript (type_of obj) TStr)
  end.

(** The items a [for] loop, a comprehension or [max] draws from [obj]. *)
Definition py_iter (obj : pyval) : M (list pyval) :=
  match obj with
  | PList l => ret l
  | PDict d => ret (map (fun kv => PStr (fst kv)) d)
  | PStr s =>
      ret (map (fun c => PStr (String c EmptyString)) (list_ascii_of_string s))
  | _ => raise (TypeError_iter (type_of obj))
  end.

(** [max(items, key=key)]: the first item is the running maximum, and a
    later item replaces it only when its key is [>] the running key. *)
Fixpoint max_loop (key : pyval -> M pyval) (best bestk : pyval)
  (l : list pyval) : M pyval :=
  match l with
  | [] => ret best
  | x :: xs =>
      k <- key x ;;
      gt <- py_compare OpGt k bestk ;;
      if gt then max_loop key x k xs else max_loop key best bestk xs
  end.

Definition py_max (key : pyval -> M pyval) (l : list pyval) : M pyval :=
  match l with
  | [] => raise ValueError_max_empty
  | x :: xs => k <- key x ;; max_loop key x k xs
  end.

(** ** The handlers *)

(** [threshold = 0.7]: the binary64 nearest to 7/10,
    [0x1.6666666666666p-1]. *)
Definition threshold : pyval := PFloat (S754_finite false 6305039478318694 (-53)).

Definition response : Type := (pyval * Z)%type.

Definition jsonify (d : list (string * pyval)) : pyval := PDict d.

Definition body (r : response) : pyval := fst r.
Definition status (r : response) : Z := snd r.

(** The value stored under [k] in a response body. *)
Definition field (k : string) (r : response) : option pyval :=
  match body r with
  | PDict d => dict_get k d
  | _ => None
  end.

(** [pred.get('class') or pred.get('label')]. *)
Definition class_or_label (pred : pyval) : M pyval :=
  c <- py_get pred "class" PNone ;;
  py_or c (py_get pred "label" PNone).

(** [pred.get('confidence', 0)]. *)
Definition confidence_of (pred : pyval) : M pyval :=
  py_get pred "confidence" (PInt 0).

(** The dict appended to [predictions] for one raw prediction. *)
Definition normalize_pred (pred : pyval) : M pyval :=
  c <- class_or_label pred ;;
  conf <- confidence_of pred ;;
  ret (PDict [("class", c); ("confidence", conf)]).

(** [data.get('image_path') or data.get('image_url') or data.get('image')]. *)
Definition image_source_of (data : pyval) : M pyval :=
  p <- py_get data "image_path" PNone ;;
  py_or p (u <- py_get data "image_url" PNone ;;
           py_or u (py_get data "image" PNone)).

(** ['output2' in output and 'predictions' in output['output2']]. *)
Definition has_model_predictions (output : pyval) : M bool :=
  has_output2 <- py_in "output2" output ;;
  if has_output2
  then output2 <- py_getitem output "output2" ;; py_in "predictions" output2
  else ret false.

(** [output['output2']['predictions']]. *)
Definition model_predictions_of (output : pyval) : M pyval :=
  output2 <- py_getitem output "output2" ;;
  py_getitem output2 "predictions".

(** Lines 66-82 of [analyze_image]: the pair [(predictions, confidence)]
    left in the two local variables.  The guard
    [result and isinstance(result, list) and len(result) > 0] holds exactly
    of a list with a first item, which is [result[0]]. *)
Definition analyze_extract (result : pyval) : M (list pyval * pyval) :=
  match result with
  | PList (output :: _) =>
      found <- has_model_predictions output ;;
      if found then
        model_predictions <- model_predictions_of output ;;
        if truthy model_predictions then
          preds <- py_iter model_predictions ;;
          predictions <- mapM normalize_pred preds ;;
          ps <- py_iter model_predictions ;;
          confs <- mapM confidence_of ps ;;
          confidence <- py_max ret confs ;;
          ret (predictions, confidence)
        else ret ([], PInt 0)
      else ret ([], PInt 0)
  | _ => ret ([], PInt 0)
  end.

(** Lines 121-137 of [validate_image]: the triple
    [(confidence, detected_issue, allow_upload)]. *)
Definition validate_decide (result : pyval) : M (pyval * pyval * pyval) :=
  match result with
  | PList (output :: _) =>
      found <- has_model_predictions output ;;
      if found then
        predictions <- model_predictions_of output ;;
        if truthy predictions then
          items <- py_iter predictions ;;
          best_pred <- py_max confidence_of items ;;
          confidence <- confidence_of best_pred ;;
          detected_issue <- class_or_label best_pred ;;
          allow_upload <- py_compare OpGe confidence threshold ;;
          ret (confidence, detected_issue, PBool allow_upload)
        else ret (PInt 0, PNone, PBool false)
      else ret (PInt 0, PNone, PBool false)
  | _ => ret (PInt 0, PNone, PBool false)
  end.

(** Lines 127-136 of [validate_image] alone: the pair
    [(confidence, detected_issue)] as it stands before the threshold
    test of line 137. *)
Definition validate_select (result : pyval) : M (pyval * pyval) :=
  match result with
  | PList (output :: _) =>
      found <- has_model_predictions output ;;
      if found then
        predictions <- model_predictions_of output ;;
        if truthy predictions then
          items <- py_iter predictions ;;
          best_pred <- py_max confidence_of items ;;
          confidence <- confidence_of best_pred ;;
          detected_issue <- class_or_label best_pred ;;
          ret (confidence, detected_issue)
        else ret (PInt 0, PNone)
      else ret (PInt 0, PNone)
  | _ => ret (PInt 0, PNone)
  end.

Section Gateway.

(** [str(v)], as the f-string applies it to the detected issue, and
    [str(e)] of a caught exception: both belong to the interpreter. *)
Variable py_str : pyval -> string.
Variable exn_str : pyexn -> string.

(** [client.run_workflow(workspace_name=, workflow_id=, images=,
    use_cache=)]: the external collaborator; it returns a value or
    raises. *)
Variable run_workflow : string -> string -> pyval -> bool -> M pyval.

(** [analyze_image], on the outcome [req] of [request.get_json()]. *)
Definition analyze_image (req : M pyval) : response :=
  match
    data <- req ;;
    if negb (truthy data) then
      ret (jsonify [("success", PBool false);
                    ("error", PStr "No data provided")], 400)
    else
      image_source <- image_source_of data ;;
      if negb (truthy image_source) then
        ret (jsonify [("success", PBool false);
                      ("error", PStr "No image source provided")], 400)
      else
        result <- run_workflow "civicrezo" "custom-workflow-6"
                    (PDict [("image", image_source)]) true ;;
        ' (predictions, confidence) <- analyze_extract result ;;
        ret (jsonify [("success", PBool true);
                      ("predictions", PList predictions);
                      ("confidence", confidence);
                      ("raw_result", result)], 200)
  with
  | inr resp => resp
  | inl e =>
      (jsonify [("success", PBool false);
                ("error", PStr (exn_str e))], 500)
  end.

(** [validate_image], on the outcome [req] of [request.get_json()]. *)
Definition validate_image (req : M pyval) : response :=
  match
    data <- req ;;
    image_source <- image_source_of data ;;
    if negb (truthy image_source) then
      ret (jsonify [("success", PBool false);
                    ("error", PStr "No image source provided")], 400)
    else
      result <- run_workflow "civicrezo" "custom-workflow-6"
                  (PDict [("image", image_source)]) true ;;
      ' (confidence, detected_issue, allow_upload) <- validate_decide result ;;
      ret (jsonify [("success", PBool true);
                    ("confidence", confidence);
                    ("modelConfidence", confidence);
                    ("allowUpload", allow_upload);
                    ("message",
                     if truthy detected_issue
                     then PStr ("Detected Issue: " ++ py_str detected_issue)
                     else PStr "No civic issue detected");
                    ("detectedIssue", detected_issue)], 200)
  with
  | inr resp => resp
  | inl e =>
      (jsonify [("success", PBool false);
                ("error", PStr (exn_str e));
                ("confidence", PInt 0);
                ("allowUpload", PBool false)], 500)
  end.

End Gateway.

(** ** Notions the properties are stated with *)

(** [b >= a] and [b > a] hold (and do not raise). *)
Definition py_le (a b : pyval) : Prop := py_compare OpGe b a = inr true.
Definition py_lt (a b : pyval) : Prop := py_compare OpGt b a = inr true.

(** A [bool], [int] or [float]; and one that is not a NaN. *)
Definition is_number (v : pyval) : bool :=
  match num_val v with
  | Some _ => true
  | None => false
  end.

Definition is_real (v : pyval) : bool :=
  match num_val v with
  | Some XNaN => false
  | Some _ => true
  | None => false
  end.

(** The confidence a raw prediction record carries: its [confidence]
    field, 0 when the record has none. *)
Definition raw_confidence (p : pyval) : pyval :=
  match p with
  | PDict d =>
      match dict_get "confidence" d with
      | Some v => v
      | None => PInt 0
      end
  | _ => PInt 0
  end.

Definition is_record (p : pyval) : Prop := exists d, p = PDict d.

(** A raw prediction as the detector produces it: a record whose
    confidence is a number other than NaN. *)
Definition well_typed_pred (p : pyval) : Prop :=
  is_record p /\ is_real (raw_confidence p) = true.

(** A record whose confidence is some number. *)
Definition numeric_pred (p : pyval) : Prop :=
  is_number (raw_confidence p) = true.

(** The raw result is a sequence whose first bundle is a record holding,
    under [output2], a record holding the list [L] under [predictions]. *)
Definition has_predictions (r : pyval) (L : list pyval) : Prop :=
  exists o rest o2,
    r = PList (PDict o :: rest) /\
    dict_get "output2" o = Some (PDict o2) /\
    dict_get "predictions" o2 = Some (PList L).

(** The raw result is absent or empty, is not a sequence, or an expected
    nested key is missing from its first bundle (or holds nothing). *)
Inductive no_predictions : pyval -> Prop :=
| np_falsy r : truthy r = false -> no_predictions r
| np_not_list r : type_of r <> TList -> no_predictions r
| np_no_output2 o rest :
    dict_get "output2" o = None ->
    no_predictions (PList (PDict o :: rest))
| np_no_predictions o rest o2 :
    dict_get "output2" o = Some (PDict o2) ->
    dict_get "predictions" o2 = None ->
    no_predictions (PList (PDict o :: rest))
| np_falsy_predictions o rest o2 v :
    dict_get "output2" o = Some (PDict o2) ->
    dict_get "predictions" o2 = Some v ->
    truthy v = false ->
    no_predictions (PList (PDict o :: rest)).

(** [c] is a greatest element of [cs]. *)
Definition is_maximum (c : pyval) (cs : list pyval) : Prop :=
  In c cs /\ forall c', In c' cs -> py_le c' c.

(** The value a record holds under [k]. *)
Definition field_of (k : string) (v : pyval) : option pyval :=
  match v with
  | PDict d => dict_get k d
  | _ => None
  end.

(** The request carries the image source [src]: a body from which the
    three-way [or] draws a truthy value. *)
Definition has_image_source (req : M pyval) (src : pyval) : Prop :=
  exists data,
    req = inr data /\ image_source_of data = inr src /\ truthy src = true.

(** The collaborator [run_workflow], called the way both handlers call
    it, yields the outcome [out]. *)
Definition workflow_yields
  (run_workflow : string -> string -> pyval -> bool -> M pyval)
  (src : pyval) (out : M pyval) : Prop :=
  run_workflow "civicrezo" "custom-workflow-6" (PDict [("image", src)]) true
  = out.

(** The two error bodies. *)
Definition missing_source_response : response :=
  (jsonify [("success", PBool false);
            ("error", PStr "No image source provided")], 400).

Definition no_data_response : response :=
  (jsonify [("success", PBool false);
            ("error", PStr "No data provided")], 400).

(** The label rule as the specification words it: the [class] field if
    present, else the [label] field if present, else null. *)
Definition spec_class_label (d : list (string * pyval)) : pyval :=
  match dict_get "class" d with
  | Some v => v
  | None =>
      match dict_get "label" d with
      | Some v => v
      | None => PNone
      end
  end.

(** [x <= y] and [x < y] on the values of numbers, read off the
    comparison; [x_not_nan] for a value that takes part in the order. *)
Definition x_not_nan (x : xnum) : Prop := x <> XNaN.
Definition xle (x y : xnum) : Prop :=
  xnum_compare x y = Some Lt \/ xnum_compare x y = Some Eq.
Definition xlt (x y : xnum) : Prop := xnum_compare x y = Some Lt.

(** The key function [key] is defined on [x], with the real number
    [kf x] for its value. *)
Definition keyed (key : pyval -> M pyval) (kf : pyval -> pyval)
  (x : pyval) : Prop :=
  key x = inr (kf x) /\ is_real (kf x) = true.

(** What [a or b] leaves of the two label fields of a record: the
    [class] field when it is present and truthy, else the [label] field
    when present, else null. *)
Definition class_label_rule (d : list (string * pyval)) : pyval :=
  let label := match dict_get "label" d with Some v => v | None => PNone end in
  match dict_get "class" d with
  | Some v => if truthy v then v else label
  | None => label
  end.

Definition label_of (p : pyval) : pyval :=
  match p with
  | PDict d => class_label_rule d
  | _ => PNone
  end.

(** The normalized form of a raw prediction record. *)
Definition normalized (p : pyval) : pyval :=
  PDict [("class", label_of p); ("confidence", raw_confidence p)].

(** The bodies the two handlers build. *)
Definition analyze_success (predictions : list pyval) (confidence result : pyval)
  : response :=
  (jsonify [("success", PBool true);
            ("predictions", PList predictions);
            ("confidence", confidence);
            ("raw_result", result)], 200).

Definition analyze_error (exn_str : pyexn -> string) (e : pyexn) : response :=
  (jsonify [("success", PBool false); ("error", PStr (exn_str e))], 500).

Definition validate_message (py_str : pyval -> string) (detected_issue : pyval)
  : pyval :=
  if truthy detected_issue
  then PStr ("Detected Issue: " ++ py_str detected_issue)
  else PStr "No civic issue detected".

Definition validate_success (py_str : pyval -> string)
  (confidence detected_issue allow_upload : pyval) : response :=
  (jsonify [("success", PBool true);
            ("confidence", confidence);
            ("modelConfidence", confidence);
            ("allowUpload", allow_upload);
            ("message", validate_message py_str detected_issue);
            ("detectedIssue", detected_issue)], 200).

Definition validate_error (exn_str : pyexn -> string) (e : pyexn) : response :=
  (jsonify [("success", PBool false);
            ("error", PStr (exn_str e));
            ("confidence", PInt 0);
            ("allowUpload", PBool false)], 500).

(** ** A concrete interpreter and collaborator, to run the handlers *)

Definition type_name (t : pytype) : string :=
  match t with
  | TNoneType => "NoneType"
  | TBool => "bool"
  | TInt => "int"
  | TFloat => "float"
  | TStr => "str"
  | TList => "list"
  | TDict => "dict"
  end.

(** [str] on the values whose rendering needs no number formatting. *)
Definition str_plain (v : pyval) : string :=
  match v with
  | PStr s => s
  | PNone => "None"
  | PBool true => "True"
  | PBool false => "False"
  | _ => ""
  end.

(** Exception texts in the wording of CPython 3.11. *)
Definition str_exn (e : pyexn) : string :=
  match e with
  | AttributeError t a =>
      "'" ++ type_name t ++ "' object has no attribute '" ++ a ++ "'"
  | TypeError_in t => "argument of type '" ++ type_name t ++ "' is not iterable"
  | TypeError_subscript TList _ => "list indices must be integers or slices, not str"
  | TypeError_subscript TStr _ => "string indices must be integers, not 'str'"
  | TypeError_subscript t _ => "'" ++ type_name t ++ "' object is not subscriptable"
  | TypeError_iter t => "'" ++ type_name t ++ "' object is not iterable"
  | TypeError_order op a b =>
      "'" ++ (match op with OpGt => ">" | OpGe => ">=" end) ++
      "' not supported between instances of '" ++ type_name a ++
      "' and '" ++ type_name b ++ "'"
  | KeyError k => "'" ++ k ++ "'"
  | ValueError_max_empty => "max() arg is an empty sequence"
  | Raised t => t
  end.

(** A collaborator that returns [r] for every image, and one that fails. *)
Definition client_returning (r : pyval)
  : string -> string -> pyval -> bool -> M pyval :=
  fun _ _ _ _ => ret r.

Definition client_raising (text : string)
  : string -> string -> pyval -> bool -> M pyval :=
  fun _ _ _ _ => raise (Raised text).

(** Binary64 literals: [0.69999], [0.82], [0.9]. *)
Definition f_0_69999 : pyval := PFloat (S754_finite false 6304949406326147 (-53)).
Definition f_0_82 : pyval := PFloat (S754_finite false 7385903388887613 (-53)).
Definition f_0_9 : pyval := PFloat (S754_finite false 8106479329266893 (-53)).

(** [[{"output2": {"predictions": preds}}]]. *)
Definition raw_with (preds : list pyval) : pyval :=
  PList [PDict [("output2", PDict [("predictions", PList preds)])]].

Definition image_request : M pyval :=
  inr (PDict [("image_url", PStr "http://host/road.jpg")]).

(** Three predictions, the last two tied at 0.9. *)
Definition tied_predictions : list pyval :=
  [PDict [("class", PStr "crack"); ("confidence", f_0_82)];
   PDict [("class", PStr "pothole"); ("confidence", f_0_9)];
   PDict [("class", PStr "garbage"); ("confidence", f_0_9)]].

(** ** The remaining endpoint, and further notions *)

(** [health_check]: a fixed payload, read from nothing. *)
Definition health_check : response :=
  (jsonify [("status", PStr "healthy");
            ("service", PStr "Local Roboflow Inference");
            ("server", PStr "localhost:9001")], 200).

(** The values a request body holds under the three source keys, in the
    order the [or] chain reads them. *)
Definition source_candidates (d : list (string * pyval)) : list pyval :=
  flat_map (fun k => match dict_get k d with Some v => [v] | None => [] end)
    ["image_path"; "image_url"; "image"].

(** Something raises [e] inside the [try] block of [analyze_image]: the
    decoding of the request, a [.get] on the body, the workflow call, or
    the processing of its result. *)
Definition analyze_raises
  (run_workflow : string -> string -> pyval -> bool -> M pyval)
  (req : M pyval) (e : pyexn) : Prop :=
  req = inl e \/
  (exists data,
      req = inr data /\ truthy data = true /\ image_source_of data = inl e) \/
  (exists src,
      has_image_source req src /\
      (workflow_yields run_workflow src (inl e) \/
       exists r, workflow_yields run_workflow src (inr r) /\
                 analyze_extract r = inl e)).

(** A float NaN, and the test for one. *)
Definition nan : pyval := PFloat S754_nan.

Definition is_nan (v : pyval) : bool :=
  match num_val v with
  | Some XNaN => true
  | _ => false
  end.

(** A normalized prediction: a record of exactly [class] and
    [confidence]. *)
Definition two_field_record (n : pyval) : Prop :=
  exists l k, n = PDict [("class", l); ("confidence", k)].

(** A collaborator that knows one workspace only. *)
Definition client_of_workspace (name : string) (r : pyval)
  : string -> string -> pyval -> bool -> M pyval :=
  fun workspace _ _ _ =>
    if String.eqb workspace name then ret r
    else raise (Raised "unknown workspace").

(** A raw result with a second bundle and with fields the handlers do
    not read. *)
Definition raw_with_noise (preds : list pyval) : pyval :=
  PList [PDict [("output1", PInt 3);
                ("output2", PDict [("time", f_0_82);
                                   ("predictions", PList preds)])];
         PDict [("output2", PDict [("predictions", PList [])])]].

(** A prediction record without a [confidence] field. *)
Definition lacks_confidence (p : pyval) : Prop :=
  exists d, p = PDict d /\ dict_get "confidence" d = None.

(** The types on which [in] raises: neither a container nor a string. *)
Definition not_a_container (v : pyval) : Prop :=
  match type_of v with
  | TNoneType | TBool | TInt | TFloat => True
  | _ => False
  end.

(** * Properties *)

(** ** The float literals *)

(** Each literal is a normal binary64 (53-bit significand) and the one
    nearest its decimal: it lies within half a unit in the last place. *)
Example threshold_is_nearest_binary64 :
  threshold = PFloat (S754_finite false 6305039478318694 (-53)) /\
  2 ^ 52 <= 6305039478318694 < 2 ^ 53 /\
  2 * Z.abs (10 * 6305039478318694 - 7 * 2 ^ 53) <= 10.
Proof. repeat split; vm_compute; congruence. Qed.

Example f_0_69999_is_nearest_binary64 :
  f_0_69999 = PFloat (S754_finite false 6304949406326147 (-53)) /\
  2 ^ 52 <= 6304949406326147 < 2 ^ 53 /\
  2 * Z.abs (100000 * 6304949406326147 - 69999 * 2 ^ 53) <= 100000.
Proof. repeat split; vm_compute; congruence. Qed.

Example f_0_69999_below_threshold :
  py_lt f_0_69999 threshold /\ ~ py_le threshold f_0_69999.
Proof. split; [reflexivity | discriminate]. Qed.

(** ** The order on numbers *)

Lemma pow2_pos (n : Z) : 0 <= n -> 0 < 2 ^ n.
Proof. intros Hn. apply Z.pow_pos_nonneg; lia. Qed.

Lemma mul_pos_compare (n m p : Z) : 0 < p -> (n * p ?= m * p) = (n ?= m).
Proof.
  intros Hp. destruct (Z.compare_spec n m) as [H | H | H].
  - subst. apply Z.compare_refl.
  - apply Z.compare_lt_iff. nia.
  - apply Z.compare_gt_iff. nia.
Qed.

(** Two finite numbers can be compared at any exponent below both. *)
Lemma fin_compare_at (k m1 e1 m2 e2 : Z) :
  k <= e1 -> k <= e2 ->
  fin_compare m1 e1 m2 e2 = (m1 * 2 ^ (e1 - k) ?= m2 * 2 ^ (e2 - k)).
Proof.
  intros H1 H2. unfold fin_compare.
  set (k0 := Z.min e1 e2).
  assert (Hk : k <= k0) by (unfold k0; lia).
  assert (H10 : 0 <= e1 - k0) by (unfold k0; lia).
  assert (H20 : 0 <= e2 - k0) by (unfold k0; lia).
  replace (e1 - k) with ((e1 - k0) + (k0 - k)) by lia.
  replace (e2 - k) with ((e2 - k0) + (k0 - k)) by lia.
  rewrite !Z.pow_add_r by lia.
  rewrite !Z.mul_assoc.
  symmetry. apply mul_pos_compare. apply pow2_pos. lia.
Qed.

Lemma fin_compare_antisym (m1 e1 m2 e2 : Z) :
  fin_compare m2 e2 m1 e1 = CompOpp (fin_compare m1 e1 m2 e2).
Proof.
  unfold fin_compare. rewrite (Z.min_comm e2 e1). apply Z.compare_antisym.
Qed.

Lemma fin_compare_refl (m e : Z) : fin_compare m e m e = Eq.
Proof. unfold fin_compare. apply Z.compare_refl. Qed.

(** The scaled view of a comparison between three finite numbers. *)
Lemma fin_compare_three (m1 e1 m2 e2 m3 e3 : Z) :
  exists a b c : Z,
    fin_compare m1 e1 m2 e2 = (a ?= b) /\
    fin_compare m2 e2 m3 e3 = (b ?= c) /\
    fin_compare m1 e1 m3 e3 = (a ?= c).
Proof.
  set (k := Z.min e1 (Z.min e2 e3)).
  exists (m1 * 2 ^ (e1 - k)), (m2 * 2 ^ (e2 - k)), (m3 * 2 ^ (e3 - k)).
  repeat split; apply fin_compare_at; unfold k; lia.
Qed.

Lemma xnum_compare_total (x y : xnum) :
  x_not_nan x -> x_not_nan y -> exists c, xnum_compare x y = Some c.
Proof.
  unfold x_not_nan. destruct x, y; simpl; intros; try congruence; eauto.
Qed.

Lemma xnum_compare_antisym (x y : xnum) :
  xnum_compare y x = option_map CompOpp (xnum_compare x y).
Proof.
  destruct x, y; simpl; try reflexivity.
  now rewrite fin_compare_antisym.
Qed.

Lemma xnum_compare_refl (x : xnum) : x_not_nan x -> xnum_compare x x = Some Eq.
Proof.
  unfold x_not_nan. destruct x; simpl; try congruence.
  now rewrite fin_compare_refl.
Qed.

Lemma fin_le_trans (m1 e1 m2 e2 m3 e3 : Z) :
  fin_compare m1 e1 m2 e2 <> Gt -> fin_compare m2 e2 m3 e3 <> Gt ->
  fin_compare m1 e1 m3 e3 <> Gt.
Proof.
  destruct (fin_compare_three m1 e1 m2 e2 m3 e3) as (a & b & c & -> & -> & ->).
  rewrite !Z.compare_gt_iff. lia.
Qed.

Lemma fin_le_lt_trans (m1 e1 m2 e2 m3 e3 : Z) :
  fin_compare m1 e1 m2 e2 <> Gt -> fin_compare m2 e2 m3 e3 = Lt ->
  fin_compare m1 e1 m3 e3 = Lt.
Proof.
  destruct (fin_compare_three m1 e1 m2 e2 m3 e3) as (a & b & c & -> & -> & ->).
  rewrite Z.compare_gt_iff, !Z.compare_lt_iff. lia.
Qed.

Lemma xle_not_gt (x y : xnum) :
  xle x y <-> exists c, xnum_compare x y = Some c /\ c <> Gt.
Proof.
  unfold xle. split.
  - intros [H | H]; rewrite H; eexists; split; eauto; discriminate.
  - intros (c & -> & Hc). destruct c; auto. congruence.
Qed.

Lemma xle_trans (x y z : xnum) : xle x y -> xle y z -> xle x z.
Proof.
  rewrite !xle_not_gt. intros (c1 & H1 & N1) (c2 & H2 & N2).
  destruct x as [| |m1 e1|], y as [| |m2 e2|], z as [| |m3 e3|];
    simpl in *; try discriminate;
    try (eexists; split; [reflexivity | discriminate]);
    try (injection H1 as <-; injection H2 as <-; congruence).
  injection H1 as <-; injection H2 as <-.
  eexists; split; [reflexivity | eapply fin_le_trans; eauto].
Qed.

Lemma xle_lt_trans (x y z : xnum) : xle x y -> xlt y z -> xlt x z.
Proof.
  rewrite xle_not_gt. unfold xlt. intros (c1 & H1 & N1) H2.
  destruct x as [| |m1 e1|], y as [| |m2 e2|], z as [| |m3 e3|];
    simpl in *; try discriminate; try reflexivity;
    try (injection H1 as <-; congruence).
  injection H1 as <-; injection H2 as H2.
  f_equal. eapply fin_le_lt_trans; eauto.
Qed.

Lemma xlt_not_le (x y : xnum) : xlt x y -> ~ xle y x.
Proof.
  unfold xlt, xle. rewrite (xnum_compare_antisym x y).
  intros ->. simpl. intros [H | H]; discriminate.
Qed.

(** ** Comparing Python numbers *)

Lemma py_compare_num (op : cmp_op) (a b : pyval) (x y : xnum) :
  num_val a = Some x -> num_val b = Some y ->
  py_compare op a b = inr (op_holds op (xnum_compare x y)).
Proof.
  destruct a; simpl; try discriminate; destruct b; simpl; try discriminate;
    intros [= <-] [= <-]; reflexivity.
Qed.

Lemma is_real_val (a : pyval) :
  is_real a = true -> exists x, num_val a = Some x /\ x_not_nan x.
Proof.
  unfold is_real, x_not_nan. destruct (num_val a) as [x|]; [|discriminate].
  destruct x; try discriminate; intros _; eexists; split; eauto; discriminate.
Qed.

Lemma is_real_number (a : pyval) : is_real a = true -> is_number a = true.
Proof.
  unfold is_real, is_number. destruct (num_val a); [reflexivity | discriminate].
Qed.

Lemma is_number_val (a : pyval) :
  is_number a = true -> exists x, num_val a = Some x.
Proof.
  unfold is_number. destruct (num_val a); [eauto | discriminate].
Qed.

Lemma py_le_xle (a b : pyval) (x y : xnum) :
  num_val a = Some x -> num_val b = Some y -> (py_le a b <-> xle x y).
Proof.
  intros Ha Hb. unfold py_le, xle.
  rewrite (py_compare_num OpGe b a y x Hb Ha), (xnum_compare_antisym x y).
  destruct (xnum_compare x y) as [[]|]; simpl; split;
    intros H; try discriminate; auto; destruct H; discriminate.
Qed.

Lemma py_lt_xlt (a b : pyval) (x y : xnum) :
  num_val a = Some x -> num_val b = Some y -> (py_lt a b <-> xlt x y).
Proof.
  intros Ha Hb. unfold py_lt, xlt.
  rewrite (py_compare_num OpGt b a y x Hb Ha), (xnum_compare_antisym x y).
  destruct (xnum_compare x y) as [[]|]; simpl; split;
    intros H; try discriminate; auto.
Qed.

Lemma py_le_refl (a : pyval) : is_real a = true -> py_le a a.
Proof.
  intros (x & Hx & Nx)%is_real_val.
  apply (py_le_xle a a x x Hx Hx). right. now apply xnum_compare_refl.
Qed.

Lemma py_le_trans (a b c : pyval) :
  is_number a = true -> is_number b = true -> is_number c = true ->
  py_le a b -> py_le b c -> py_le a c.
Proof.
  intros (x & Hx)%is_number_val (y & Hy)%is_number_val (z & Hz)%is_number_val.
  rewrite (py_le_xle a b x y Hx Hy), (py_le_xle b c y z Hy Hz),
    (py_le_xle a c x z Hx Hz).
  apply xle_trans.
Qed.

Lemma py_le_lt_trans (a b c : pyval) :
  is_number a = true -> is_number b = true -> is_number c = true ->
  py_le a b -> py_lt b c -> py_lt a c.
Proof.
  intros (x & Hx)%is_number_val (y & Hy)%is_number_val (z & Hz)%is_number_val.
  rewrite (py_le_xle a b x y Hx Hy), (py_lt_xlt b c y z Hy Hz),
    (py_lt_xlt a c x z Hx Hz).
  apply xle_lt_trans.
Qed.

Lemma py_lt_le (a b : pyval) :
  is_number a = true -> is_number b = true -> py_lt a b -> py_le a b.
Proof.
  intros (x & Hx)%is_number_val (y & Hy)%is_number_val.
  rewrite (py_le_xle a b x y Hx Hy), (py_lt_xlt a b x y Hx Hy).
  unfold xlt, xle. auto.
Qed.

Lemma py_lt_not_le (a b : pyval) :
  is_number a = true -> is_number b = true -> py_lt a b -> ~ py_le b a.
Proof.
  intros (x & Hx)%is_number_val (y & Hy)%is_number_val.
  rewrite (py_le_xle b a y x Hy Hx), (py_lt_xlt a b x y Hx Hy).
  apply xlt_not_le.
Qed.

(** On numbers other than NaN, [>] answers, and [not (a > b)] is [a <= b]. *)
Lemma py_gt_real (a b : pyval) :
  is_real a = true -> is_real b = true ->
  (py_compare OpGt a b = inr true /\ py_lt b a) \/
  (py_compare OpGt a b = inr false /\ py_le a b).
Proof.
  intros Ra Rb.
  destruct (is_real_val a Ra) as (x & Hx & Nx).
  destruct (is_real_val b Rb) as (y & Hy & Ny).
  rewrite (py_le_xle a b x y Hx Hy). unfold py_lt.
  rewrite (py_compare_num OpGt a b x y Hx Hy).
  destruct (xnum_compare_total x y Nx Ny) as (c & Hc).
  unfold xle. rewrite Hc. destruct c; simpl; auto.
Qed.

(** [>=] answers on any two numbers, with the truth of [py_le]. *)
Lemma py_ge_number (a b : pyval) :
  is_number a = true -> is_number b = true ->
  exists r, py_compare OpGe a b = inr r /\ (r = true <-> py_le b a).
Proof.
  intros (x & Hx)%is_number_val (y & Hy)%is_number_val.
  unfold py_le. rewrite (py_compare_num OpGe a b x y Hx Hy).
  eexists; split; [reflexivity|]. split; congruence.
Qed.

Lemma py_eq_num (a b : pyval) (x y : xnum) :
  num_val a = Some x -> num_val b = Some y ->
  py_eq a b = match xnum_compare x y with Some Eq => true | _ => false end.
Proof.
  destruct a; simpl; try discriminate; destruct b; simpl; try discriminate;
    intros [= <-] [= <-]; reflexivity.
Qed.

Lemma py_eq_le (a b : pyval) :
  is_number a = true -> is_number b = true -> py_eq a b = true -> py_le b a.
Proof.
  intros (x & Hx)%is_number_val (y & Hy)%is_number_val.
  rewrite (py_eq_num a b x y Hx Hy), (py_le_xle b a y x Hy Hx).
  unfold xle. rewrite (xnum_compare_antisym x y).
  destruct (xnum_compare x y) as [[]|]; simpl; try discriminate; auto.
Qed.

(** ** [max] picks the first greatest item *)

Section MaxSpec.

Variable key : pyval -> M pyval.
Variable kf : pyval -> pyval.

Lemma max_loop_spec (l : list pyval) :
  forall best bestk,
    is_real bestk = true ->
    Forall (keyed key kf) l ->
    (max_loop key best bestk l = inr best /\
     forall x, In x l -> py_le (kf x) bestk)
    \/
    (exists l1 b l2,
        l = (l1 ++ b :: l2)%list /\
        max_loop key best bestk l = inr b /\
        py_lt bestk (kf b) /\
        (forall x, In x l1 -> py_lt (kf x) (kf b)) /\
        (forall x, In x l2 -> py_le (kf x) (kf b))).
Proof.
  induction l as [|x xs IH]; intros best bestk Rb Hl.
  - left. split; [reflexivity | intros x []].
  - inversion Hl as [|? ? [Hk Rk] Hxs]; subst.
    simpl. rewrite Hk. simpl.
    assert (Nk : is_number (kf x) = true) by now apply is_real_number.
    assert (Nb : is_number bestk = true) by now apply is_real_number.
    destruct (py_gt_real (kf x) bestk Rk Rb) as [[-> Hlt] | [-> Hle]]; simpl.
    + right. destruct (IH x (kf x) Rk Hxs)
        as [[Hr Hall] | (l1 & b & l2 & -> & Hr & Hlt' & H1 & H2)].
      * exists [], x, xs. repeat split; auto. intros y [].
      * assert (Rb' : is_number (kf b) = true).
        { apply Forall_forall with (x := b) in Hxs.
          - apply is_real_number, Hxs.
          - apply in_or_app. right. left. reflexivity. }
        exists (x :: l1), b, l2. repeat split; auto.
        -- apply py_le_lt_trans with (kf x); auto. now apply py_lt_le.
        -- intros y [<- | Hy]; auto.
    + destruct (IH best bestk Rb Hxs)
        as [[Hr Hall] | (l1 & b & l2 & -> & Hr & Hlt' & H1 & H2)].
      * left. split; auto. intros y [<- | Hy]; auto.
      * assert (Rb' : is_number (kf b) = true).
        { apply Forall_forall with (x := b) in Hxs.
          - apply is_real_number, Hxs.
          - apply in_or_app. right. left. reflexivity. }
        right. exists (x :: l1), b, l2. repeat split; auto.
        intros y [<- | Hy]; auto.
        apply py_le_lt_trans with bestk; auto.
Qed.

(** [py_max] returns the earliest item whose key is greatest. *)
Lemma py_max_spec (l : list pyval) :
  l <> [] -> Forall (keyed key kf) l ->
  exists l1 b l2,
    l = (l1 ++ b :: l2)%list /\
    py_max key l = inr b /\
    (forall x, In x l1 -> py_lt (kf x) (kf b)) /\
    (forall x, In x l2 -> py_le (kf x) (kf b)).
Proof.
  destruct l as [|x xs]; [congruence|]. intros _ Hl.
  inversion Hl as [|? ? [Hk Rk] Hxs]; subst.
  simpl. rewrite Hk. simpl.
  destruct (max_loop_spec xs x (kf x) Rk Hxs)
    as [[Hr Hall] | (l1 & b & l2 & -> & Hr & Hlt' & H1 & H2)].
  - exists [], x, xs. repeat split; auto. intros y [].
  - exists (x :: l1), b, l2. repeat split; auto.
    intros y [<- | Hy]; auto.
Qed.

End MaxSpec.

(** ** The handlers, case by case *)

Lemma analyze_image_cases exn_str run_workflow (req : M pyval) :
  analyze_image exn_str run_workflow req =
  match req with
  | inl e => analyze_error exn_str e
  | inr data =>
      if negb (truthy data) then no_data_response else
      match image_source_of data with
      | inl e => analyze_error exn_str e
      | inr src =>
          if negb (truthy src) then missing_source_response else
          match run_workflow "civicrezo" "custom-workflow-6"
                  (PDict [("image", src)]) true with
          | inl e => analyze_error exn_str e
          | inr r =>
              match analyze_extract r with
              | inl e => analyze_error exn_str e
              | inr (predictions, confidence) =>
                  analyze_success predictions confidence r
              end
          end
      end
  end.
Proof.
  unfold analyze_image. destruct req as [e|data]; simpl; [reflexivity|].
  destruct (truthy data); simpl; [|reflexivity].
  destruct (image_source_of data) as [e|src]; simpl; [reflexivity|].
  destruct (truthy src); simpl; [|reflexivity].
  destruct (run_workflow _ _ _ _) as [e|r]; simpl; [reflexivity|].
  destruct (analyze_extract r) as [e|[ps c]]; reflexivity.
Qed.

Lemma validate_image_cases py_str exn_str run_workflow (req : M pyval) :
  validate_image py_str exn_str run_workflow req =
  match req with
  | inl e => validate_error exn_str e
  | inr data =>
      match image_source_of data with
      | inl e => validate_error exn_str e
      | inr src =>
          if negb (truthy src) then missing_source_response else
          match run_workflow "civicrezo" "custom-workflow-6"
                  (PDict [("image", src)]) true with
          | inl e => validate_error exn_str e
          | inr r =>
              match validate_decide r with
              | inl e => validate_error exn_str e
              | inr (confidence, detected_issue, allow_upload) =>
                  validate_success py_str confidence detected_issue allow_upload
              end
          end
      end
  end.
Proof.
  unfold validate_image. destruct req as [e|data]; simpl; [reflexivity|].
  destruct (image_source_of data) as [e|src]; simpl; [reflexivity|].
  destruct (truthy src); simpl; [|reflexivity].
  destruct (run_workflow _ _ _ _) as [e|r]; simpl; [reflexivity|].
  destruct (validate_decide r) as [e|[[c d] a]]; reflexivity.
Qed.

(** With an image source in the request and an outcome of the workflow
    call, each handler is its extraction step wrapped in a body. *)
Lemma analyze_image_on exn_str run_workflow req src r :
  has_image_source req src -> workflow_yields run_workflow src (inr r) ->
  analyze_image exn_str run_workflow req =
  match analyze_extract r with
  | inl e => analyze_error exn_str e
  | inr (predictions, confidence) => analyze_success predictions confidence r
  end.
Proof.
  intros (data & -> & Hsrc & Ht) Hw. rewrite analyze_image_cases.
  assert (Hd : truthy data = true).
  { destruct data; try reflexivity; simpl in Hsrc; try discriminate.
    - destruct d; [|reflexivity]. simpl in Hsrc. injection Hsrc as <-.
      discriminate. }
  rewrite Hd, Hsrc, Ht. simpl. unfold workflow_yields in Hw. now rewrite Hw.
Qed.

Lemma validate_image_on py_str exn_str run_workflow req src r :
  has_image_source req src -> workflow_yields run_workflow src (inr r) ->
  validate_image py_str exn_str run_workflow req =
  match validate_decide r with
  | inl e => validate_error exn_str e
  | inr (confidence, detected_issue, allow_upload) =>
      validate_success py_str confidence detected_issue allow_upload
  end.
Proof.
  intros (data & -> & Hsrc & Ht) Hw. rewrite validate_image_cases.
  rewrite Hsrc, Ht. simpl. unfold workflow_yields in Hw. now rewrite Hw.
Qed.

(** ** Records, and lists of records *)

Lemma confidence_of_record (p : pyval) :
  is_record p -> confidence_of p = inr (raw_confidence p).
Proof. intros [d ->]. reflexivity. Qed.

Lemma class_or_label_record (p : pyval) :
  is_record p -> class_or_label p = inr (label_of p).
Proof.
  intros [d ->]. unfold class_or_label, label_of, class_label_rule, py_or.
  simpl. destruct (dict_get "class" d) as [v|]; simpl.
  - destruct (truthy v); reflexivity.
  - reflexivity.
Qed.

Lemma normalize_pred_record (p : pyval) :
  is_record p -> normalize_pred p = inr (normalized p).
Proof.
  intros Hp. unfold normalize_pred.
  rewrite (class_or_label_record p Hp), (confidence_of_record p Hp).
  reflexivity.
Qed.

Lemma not_record_raises (p : pyval) :
  ~ is_record p ->
  confidence_of p = inl (AttributeError (type_of p) "get") /\
  normalize_pred p = inl (AttributeError (type_of p) "get").
Proof.
  intros Hp. destruct p; try (split; reflexivity).
  exfalso. apply Hp. eexists. reflexivity.
Qed.

Lemma is_record_dec (p : pyval) : is_record p \/ ~ is_record p.
Proof.
  destruct p; try (right; intros [d Hd]; discriminate).
  left. eexists. reflexivity.
Qed.

Lemma mapM_pure {A B : Type} (f : A -> M B) (g : A -> B) (l : list A) :
  Forall (fun x => f x = inr (g x)) l -> mapM f l = inr (map g l).
Proof.
  induction 1 as [|x xs Hx _ IH]; simpl; [reflexivity|].
  rewrite Hx. simpl. rewrite IH. reflexivity.
Qed.

Lemma mapM_raises {A B : Type} (f : A -> M B) (l : list A) :
  (exists x e, In x l /\ f x = inl e) -> exists e, mapM f l = inl e.
Proof.
  induction l as [|y ys IH]; intros (x & e & Hin & Hx); [destruct Hin|].
  simpl. destruct (f y) as [e'|b] eqn:Hy; simpl; [eauto|].
  destruct Hin as [-> | Hin]; [congruence|].
  destruct IH as (e'' & He); [eauto|]. rewrite He. simpl. eauto.
Qed.

Lemma records_or_not (l : list pyval) :
  Forall is_record l \/ exists x, In x l /\ ~ is_record x.
Proof.
  induction l as [|x xs [IH | (y & Hy & Ny)]].
  - left. constructor.
  - destruct (is_record_dec x) as [Hx | Hx].
    + left. now constructor.
    + right. exists x. split; [now left | assumption].
  - right. exists y. split; [now right | assumption].
Qed.

(** ** [max] with a key, and [max] over the keys *)

Lemma max_loop_member key (l : list pyval) :
  forall best bestk b,
    max_loop key best bestk l = inr b -> b = best \/ In b l.
Proof.
  induction l as [|x xs IH]; simpl; intros best bestk b H.
  - injection H as <-. now left.
  - destruct (key x) as [e|k]; simpl in H; [discriminate|].
    destruct (py_compare OpGt k bestk) as [e|[]]; simpl in H; [discriminate| |].
    + apply IH in H. destruct H as [-> | H]; auto.
    + apply IH in H. destruct H as [-> | H]; auto.
Qed.

Lemma py_max_member key (l : list pyval) (b : pyval) :
  py_max key l = inr b -> In b l.
Proof.
  destruct l as [|x xs]; simpl; [discriminate|].
  destruct (key x) as [e|k]; simpl; [discriminate|].
  intros H. apply max_loop_member in H. destruct H as [-> | H]; auto.
Qed.

Lemma max_loop_key_raises key (l : list pyval) :
  (exists x e, In x l /\ key x = inl e) ->
  forall best bestk, exists e, max_loop key best bestk l = inl e.
Proof.
  induction l as [|y ys IH]; intros (x & e & Hin & Hx) best bestk;
    [destruct Hin|].
  simpl. destruct (key y) as [e'|k] eqn:Hy; simpl; [eauto|].
  destruct Hin as [-> | Hin]; [congruence|].
  destruct (py_compare OpGt k bestk) as [e'|[]]; simpl; eauto.
Qed.

Lemma py_max_key_raises key (l : list pyval) :
  (exists x e, In x l /\ key x = inl e) -> exists e, py_max key l = inl e.
Proof.
  intros (x & e & Hin & Hx). destruct l as [|y ys]; [destruct Hin|].
  simpl. destruct (key y) as [e'|k] eqn:Hy; simpl; [eauto|].
  destruct Hin as [-> | Hin]; [congruence|].
  apply max_loop_key_raises. eauto.
Qed.

(** Taking the maximum of the keys is taking the key of the maximum. *)
Lemma max_loop_keys key kf (l : list pyval) :
  Forall (fun x => key x = inr (kf x)) l ->
  forall best bestk,
    max_loop ret (kf best) bestk (map kf l) =
    (b <- max_loop key best bestk l ;; ret (kf b)).
Proof.
  induction 1 as [|x xs Hx _ IH]; intros best bestk; simpl; [reflexivity|].
  rewrite Hx. simpl.
  destruct (py_compare OpGt (kf x) bestk) as [e|[]]; simpl; auto.
Qed.

Lemma py_max_keys key kf (l : list pyval) :
  Forall (fun x => key x = inr (kf x)) l ->
  py_max ret (map kf l) = (b <- py_max key l ;; ret (kf b)).
Proof.
  intros Hl. destruct l as [|x xs]; simpl; [reflexivity|].
  inversion Hl as [|? ? Hx Hxs]; subst. rewrite Hx. simpl.
  now apply max_loop_keys.
Qed.

(** ** The extraction step on each shape of raw result *)

Lemma model_predictions_inv (output mp : pyval) :
  model_predictions_of output = inr mp ->
  exists o o2,
    output = PDict o /\
    dict_get "output2" o = Some (PDict o2) /\
    dict_get "predictions" o2 = Some mp.
Proof.
  unfold model_predictions_of.
  destruct output; simpl; try discriminate.
  destruct (dict_get "output2" d) as [v|] eqn:Ho; simpl; [|discriminate].
  destruct v; simpl; try discriminate.
  destruct (dict_get "predictions" d0) as [w|] eqn:Hp; simpl; [|discriminate].
  intros [= <-]. eauto.
Qed.

Lemma has_predictions_found (o o2 : list (string * pyval)) (mp : pyval) :
  dict_get "output2" o = Some (PDict o2) ->
  dict_get "predictions" o2 = Some mp ->
  has_model_predictions (PDict o) = inr true /\
  model_predictions_of (PDict o) = inr mp.
Proof.
  intros Ho Hp. unfold has_model_predictions, model_predictions_of.
  simpl. rewrite Ho. simpl. rewrite Hp. simpl. split; reflexivity.
Qed.

(** The decision is the selection followed by the threshold test: on
    the initial values the test would answer false as well. *)
Lemma validate_decide_select (r : pyval) :
  validate_decide r =
  (' (c, d) <- validate_select r ;;
   a <- py_compare OpGe c threshold ;;
   ret (c, d, PBool a)).
Proof.
  unfold validate_decide, validate_select.
  destruct r as [|b|z|f|s|l|d]; try reflexivity.
  destruct l as [|output rest]; [reflexivity|].
  destruct (has_model_predictions output) as [e|[]]; cbn [bind];
    try reflexivity.
  destruct (model_predictions_of output) as [e|mp]; cbn [bind];
    try reflexivity.
  destruct (truthy mp); [|reflexivity].
  destruct (py_iter mp) as [e|items]; cbn [bind]; try reflexivity.
  destruct (py_max confidence_of items) as [e|best]; cbn [bind];
    try reflexivity.
  destruct (confidence_of best) as [e|conf]; cbn [bind]; try reflexivity.
  destruct (class_or_label best) as [e|lbl]; cbn [bind]; reflexivity.
Qed.

(** A raw result with a non-empty list of records: both handlers take
    the maximum over the same list. *)
Lemma extract_with_predictions (r : pyval) (L : list pyval) :
  has_predictions r L -> L <> [] -> Forall is_record L ->
  analyze_extract r =
    (b <- py_max confidence_of L ;; ret (map normalized L, raw_confidence b))
  /\
  validate_select r =
    (b <- py_max confidence_of L ;; ret (raw_confidence b, label_of b)).
Proof.
  intros (o & rest & o2 & -> & Ho & Hp) Hne HL.
  destruct (has_predictions_found o o2 (PList L) Ho Hp) as [Hf Hm].
  assert (Ht : truthy (PList L) = true) by (destruct L; [congruence | reflexivity]).
  assert (Hc : Forall (fun x => confidence_of x = inr (raw_confidence x)) L).
  { eapply Forall_impl; [|exact HL]. apply confidence_of_record. }
  split.
  - unfold analyze_extract. rewrite Hf. cbn [bind]. rewrite Hm. cbn [bind].
    rewrite Ht. cbn [bind py_iter ret].
    rewrite (mapM_pure normalize_pred normalized).
    2:{ eapply Forall_impl; [|exact HL]. apply normalize_pred_record. }
    cbn [bind]. rewrite (mapM_pure confidence_of raw_confidence L Hc).
    cbn [bind].
    rewrite (py_max_keys confidence_of raw_confidence L Hc).
    destruct (py_max confidence_of L); reflexivity.
  - unfold validate_select. rewrite Hf. cbn [bind]. rewrite Hm. cbn [bind].
    rewrite Ht. cbn [bind py_iter ret].
    destruct (py_max confidence_of L) as [e|b] eqn:Hb; cbn [bind];
      [reflexivity|].
    assert (Rb : is_record b).
    { apply py_max_member in Hb.
      now apply (proj1 (Forall_forall is_record L) HL). }
    rewrite (confidence_of_record b Rb), (class_or_label_record b Rb).
    reflexivity.
Qed.

(** A raw result without predictions: both handlers keep their initial
    values. *)
Lemma extract_no_predictions (r : pyval) :
  no_predictions r ->
  analyze_extract r = inr ([], PInt 0) /\
  validate_decide r = inr (PInt 0, PNone, PBool false).
Proof.
  intros H. destruct H as [r Hf | r Hn | o rest Ho | o rest o2 Ho Hp
                          | o rest o2 v Ho Hp Hv].
  - destruct r; try (split; reflexivity).
    destruct l; [split; reflexivity | discriminate].
  - destruct r; try (split; reflexivity). now elim Hn.
  - unfold analyze_extract, validate_decide, has_model_predictions.
    simpl. rewrite Ho. split; reflexivity.
  - unfold analyze_extract, validate_decide, has_model_predictions.
    simpl. rewrite Ho. simpl. rewrite Hp. split; reflexivity.
  - destruct (has_predictions_found o o2 v Ho Hp) as [Hf Hm].
    unfold analyze_extract, validate_decide.
    rewrite Hf. simpl. rewrite Hm. simpl. rewrite Hv. split; reflexivity.
Qed.

Lemma iter_records (mp : pyval) (items : list pyval) :
  py_iter mp = inr items -> truthy mp = true -> Forall is_record items ->
  mp = PList items /\ items <> [].
Proof.
  destruct mp as [|b|z|f|s|L|d]; simpl; try discriminate.
  - destruct s as [|c s]; [discriminate|]. simpl. intros [= <-] _ H.
    inversion H as [|? ? [d Hd] _]. discriminate.
  - intros [= <-] Ht _. split; [reflexivity|]. destruct L; [discriminate|].
    discriminate.
  - destruct d as [|[k v] d]; [discriminate|]. simpl. intros [= <-] _ H.
    inversion H as [|? ? [d' Hd] _]. discriminate.
Qed.

(** Every raw result falls in one of three classes: nothing to report,
    an exception in both handlers, or a non-empty list of records. *)
Lemma extract_shape (r : pyval) :
  (analyze_extract r = inr ([], PInt 0) /\
   validate_select r = inr (PInt 0, PNone))
  \/ ((exists e, analyze_extract r = inl e) /\
      (exists e, validate_select r = inl e))
  \/ (exists L, has_predictions r L /\ L <> [] /\ Forall is_record L).
Proof.
  destruct r as [|b|z|f|s|l|d]; try (left; split; reflexivity).
  destruct l as [|output rest]; [left; split; reflexivity|].
  unfold analyze_extract, validate_select.
  destruct (has_model_predictions output) as [e|[]] eqn:Hf; cbn [bind];
    [right; left; split; eauto | | left; split; reflexivity].
  destruct (model_predictions_of output) as [e|mp] eqn:Hm; cbn [bind];
    [right; left; split; eauto |].
  destruct (truthy mp) eqn:Ht; [|left; split; reflexivity].
  destruct (py_iter mp) as [e|items] eqn:Hi; cbn [bind];
    [right; left; split; eauto |].
  destruct (records_or_not items) as [HL | (y & Hy & Ny)].
  - right. right.
    destruct (iter_records mp items Hi Ht HL) as [-> Hne].
    destruct (model_predictions_inv output _ Hm) as (o & o2 & -> & Ho & Hp).
    exists items. split; [|split; assumption]. exists o, rest, o2. auto.
  - right. left. destruct (not_record_raises y Ny) as [Hc Hn]. split.
    + destruct (mapM_raises normalize_pred items) as (e & He); [eauto|].
      rewrite He. cbn [bind]. eauto.
    + destruct (py_max_key_raises confidence_of items) as (e & He); [eauto|].
      rewrite He. cbn [bind]. eauto.
Qed.

(** ** A well-typed prediction list *)

Lemma well_typed_keyed (p : pyval) :
  well_typed_pred p -> keyed confidence_of raw_confidence p.
Proof.
  intros [Hr Hc]. split; [now apply confidence_of_record | exact Hc].
Qed.

Lemma well_typed_confidences (L : list pyval) (c : pyval) :
  Forall well_typed_pred L -> In c (map raw_confidence L) -> is_real c = true.
Proof.
  intros HL Hc. apply in_map_iff in Hc. destruct Hc as (p & <- & Hp).
  apply (proj1 (Forall_forall _ L) HL p Hp).
Qed.

(** Both handlers settle on the earliest prediction [b] of greatest
    confidence: everything before it is strictly below, everything after
    it is at most equal. *)
Lemma decide_on_predictions (r : pyval) (L : list pyval) :
  has_predictions r L -> L <> [] -> Forall well_typed_pred L ->
  exists l1 b l2 allow,
    L = (l1 ++ b :: l2)%list /\
    (forall x, In x l1 -> py_lt (raw_confidence x) (raw_confidence b)) /\
    (forall x, In x l2 -> py_le (raw_confidence x) (raw_confidence b)) /\
    analyze_extract r = inr (map normalized L, raw_confidence b) /\
    validate_decide r = inr (raw_confidence b, label_of b, PBool allow) /\
    (allow = true <-> py_le threshold (raw_confidence b)).
Proof.
  intros Hr Hne HL.
  assert (Hk : Forall (keyed confidence_of raw_confidence) L).
  { eapply Forall_impl; [|exact HL]. apply well_typed_keyed. }
  assert (Hrec : Forall is_record L).
  { eapply Forall_impl; [|exact HL]. intros p [Hp _]. exact Hp. }
  destruct (py_max_spec confidence_of raw_confidence L Hne Hk)
    as (l1 & b & l2 & HLeq & Hmax & H1 & H2).
  destruct (extract_with_predictions r L Hr Hne Hrec) as [Ha Hs].
  rewrite Hmax in Ha, Hs. cbn [bind] in Ha, Hs.
  pose proof (validate_decide_select r) as Hv. rewrite Hs in Hv.
  cbn [bind ret] in Hv.
  assert (Rb : is_real (raw_confidence b) = true).
  { apply (well_typed_confidences L); [exact HL|].
    apply in_map. rewrite HLeq. apply in_or_app. right. now left. }
  destruct (py_ge_number (raw_confidence b) threshold) as (allow & Hge & Hiff).
  { now apply is_real_number. }
  { reflexivity. }
  rewrite Hge in Hv. cbn [bind] in Hv.
  exists l1, b, l2, allow. repeat split; auto; apply Hiff.
Qed.

Lemma first_maximum_is_maximum (L l1 l2 : list pyval) (b : pyval) :
  Forall well_typed_pred L ->
  L = (l1 ++ b :: l2)%list ->
  (forall x, In x l1 -> py_lt (raw_confidence x) (raw_confidence b)) ->
  (forall x, In x l2 -> py_le (raw_confidence x) (raw_confidence b)) ->
  is_maximum (raw_confidence b) (map raw_confidence L).
Proof.
  intros HL -> H1 H2. split.
  - apply in_map. apply in_or_app. right. now left.
  - intros c' Hc'. apply in_map_iff in Hc'. destruct Hc' as (x & <- & Hx).
    assert (Rx : is_real (raw_confidence x) = true).
    { apply (well_typed_confidences _ _ HL). now apply in_map. }
    assert (Rb : is_real (raw_confidence b) = true).
    { apply (well_typed_confidences _ _ HL). apply in_map.
      apply in_or_app. right. now left. }
    apply in_app_or in Hx. destruct Hx as [Hx | [<- | Hx]].
    + apply py_lt_le; auto using is_real_number.
    + now apply py_le_refl.
    + now apply H2.
Qed.

(** Any two greatest confidences bound each other. *)
Lemma maximum_unique (L : list pyval) (c c' : pyval) :
  is_maximum c L -> is_maximum c' L -> py_le c c' /\ py_le c' c.
Proof. intros [Hc Hm] [Hc' Hm']. split; auto. Qed.

(** ** The upload decision *)

(** C1.  On a raw result whose prediction list is non-empty, /validate
    answers 200 with [allowUpload] true exactly when the greatest
    confidence of the list is at least the threshold 0.7: a greatest
    confidence equal to 0.7 gives true, one strictly below gives false. *)
Theorem validate_allows_iff_max_reaches_threshold
  py_str exn_str run_workflow (req : M pyval) (src r : pyval) (L : list pyval) :
  has_image_source req src ->
  workflow_yields run_workflow src (inr r) ->
  has_predictions r L -> L <> [] -> Forall well_typed_pred L ->
  let resp := validate_image py_str exn_str run_workflow req in
  status resp = 200 /\
  (exists c, is_maximum c (map raw_confidence L)) /\
  forall c, is_maximum c (map raw_confidence L) ->
    (field "allowUpload" resp = Some (PBool true) <-> py_le threshold c) /\
    (py_eq c threshold = true -> field "allowUpload" resp = Some (PBool true)) /\
    (py_lt c threshold -> field "allowUpload" resp = Some (PBool false)).
Proof.
  intros Hreq Hw Hr Hne HL resp. unfold resp.
  rewrite (validate_image_on _ _ _ _ _ _ Hreq Hw).
  destruct (decide_on_predictions r L Hr Hne HL)
    as (l1 & b & l2 & allow & HLeq & H1 & H2 & _ & -> & Hallow).
  pose proof (first_maximum_is_maximum L l1 l2 b HL HLeq H1 H2) as Hb.
  split; [reflexivity|]. split; [eauto|].
  intros c Hc.
  destruct (maximum_unique _ _ _ Hb Hc) as [Hbc Hcb].
  assert (Nb : is_number (raw_confidence b) = true).
  { apply is_real_number, (well_typed_confidences L); [exact HL | apply Hb]. }
  assert (Nc : is_number c = true).
  { apply is_real_number, (well_typed_confidences L); [exact HL | apply Hc]. }
  assert (Nt : is_number threshold = true) by reflexivity.
  assert (Hiff : allow = true <-> py_le threshold c).
  { rewrite Hallow. split; intros H.
    - now apply py_le_trans with (raw_confidence b).
    - now apply py_le_trans with c. }
  change (field "allowUpload" (validate_success py_str (raw_confidence b)
            (label_of b) (PBool allow))) with (Some (PBool allow)).
  split; [|split].
  - rewrite <- Hiff. split; [now intros [= ->] | now intros ->].
  - intros He. f_equal. f_equal. apply Hiff. now apply py_eq_le.
  - intros Hlt. f_equal. f_equal. destruct allow; [|reflexivity].
    exfalso. apply (py_lt_not_le c threshold Nc Nt Hlt). now apply Hiff.
Qed.

Lemma validate_allows_iff_max_reaches_threshold_witness :
  let L := [PDict [("class", PStr "pothole"); ("confidence", threshold)]] in
  let resp :=
    validate_image str_plain str_exn (client_returning (raw_with L))
      image_request in
  field "allowUpload" resp = Some (PBool true) <-> py_le threshold threshold.
Proof.
  intros L resp.
  refine (proj1 (proj2 (proj2
    (validate_allows_iff_max_reaches_threshold str_plain str_exn
       (client_returning (raw_with L)) image_request
       (PStr "http://host/road.jpg") (raw_with L) L _ _ _ _ _))
    threshold _)).
  - exists (PDict [("image_url", PStr "http://host/road.jpg")]).
    repeat split; reflexivity.
  - reflexivity.
  - exists [("output2", PDict [("predictions", PList L)])], [],
      [("predictions", PList L)].
    repeat split; reflexivity.
  - discriminate.
  - constructor; [|constructor]. split; [eexists; reflexivity | reflexivity].
  - split; [left; reflexivity|]. intros c' [<- | []]. reflexivity.
Defined.

(** The boundary, run on the handler: 0.7 is let through, 0.69999 is not. *)
Example validate_at_threshold :
  field "allowUpload"
    (validate_image str_plain str_exn
       (client_returning
          (raw_with [PDict [("class", PStr "pothole");
                            ("confidence", threshold)]]))
       image_request) = Some (PBool true).
Proof. reflexivity. Qed.

Example validate_below_threshold :
  field "allowUpload"
    (validate_image str_plain str_exn
       (client_returning
          (raw_with [PDict [("class", PStr "pothole");
                            ("confidence", f_0_69999)]]))
       image_request) = Some (PBool false).
Proof. reflexivity. Qed.

(** The first example of the specification: one pothole at 0.82. *)
Example validate_pothole :
  validate_image str_plain str_exn
    (client_returning
       (raw_with [PDict [("class", PStr "pothole"); ("confidence", f_0_82)]]))
    image_request
  = (jsonify [("success", PBool true);
              ("confidence", f_0_82);
              ("modelConfidence", f_0_82);
              ("allowUpload", PBool true);
              ("message", PStr "Detected Issue: pothole");
              ("detectedIssue", PStr "pothole")], 200).
Proof. reflexivity. Qed.

(** The second: an empty prediction list. *)
Example validate_empty_list :
  validate_image str_plain str_exn (client_returning (raw_with []))
    image_request
  = (jsonify [("success", PBool true);
              ("confidence", PInt 0);
              ("modelConfidence", PInt 0);
              ("allowUpload", PBool false);
              ("message", PStr "No civic issue detected");
              ("detectedIssue", PNone)], 200).
Proof. reflexivity. Qed.

(** C6.  On a non-empty prediction list /validate reports the confidence
    and the label of the earliest prediction of greatest confidence: every
    prediction before the selected one has a strictly smaller confidence,
    every prediction after it has at most the same. *)
Theorem validate_selects_first_maximum
  py_str exn_str run_workflow (req : M pyval) (src r : pyval) (L : list pyval) :
  has_image_source req src ->
  workflow_yields run_workflow src (inr r) ->
  has_predictions r L -> L <> [] -> Forall well_typed_pred L ->
  let resp := validate_image py_str exn_str run_workflow req in
  exists l1 p l2,
    L = (l1 ++ p :: l2)%list /\
    (forall q, In q l1 -> py_lt (raw_confidence q) (raw_confidence p)) /\
    (forall q, In q l2 -> py_le (raw_confidence q) (raw_confidence p)) /\
    is_maximum (raw_confidence p) (map raw_confidence L) /\
    confidence_of p = inr (raw_confidence p) /\
    class_or_label p = inr (label_of p) /\
    field "confidence" resp = Some (raw_confidence p) /\
    field "detectedIssue" resp = Some (label_of p).
Proof.
  intros Hreq Hw Hr Hne HL resp. unfold resp.
  rewrite (validate_image_on _ _ _ _ _ _ Hreq Hw).
  destruct (decide_on_predictions r L Hr Hne HL)
    as (l1 & b & l2 & allow & HLeq & H1 & H2 & _ & -> & _).
  assert (Rb : is_record b).
  { apply (proj1 (Forall_forall well_typed_pred L) HL b).
    rewrite HLeq. apply in_or_app. right. now left. }
  exists l1, b, l2. repeat split; auto.
  - apply in_map. rewrite HLeq. apply in_or_app. right. now left.
  - apply (first_maximum_is_maximum L l1 l2 b HL HLeq H1 H2).
  - now apply confidence_of_record.
  - now apply class_or_label_record.
Qed.

Lemma validate_selects_first_maximum_witness :
  let resp :=
    validate_image str_plain str_exn
      (client_returning (raw_with tied_predictions)) image_request in
  exists l1 p l2,
    tied_predictions = (l1 ++ p :: l2)%list /\
    (forall q, In q l1 -> py_lt (raw_confidence q) (raw_confidence p)) /\
    (forall q, In q l2 -> py_le (raw_confidence q) (raw_confidence p)) /\
    is_maximum (raw_confidence p) (map raw_confidence tied_predictions) /\
    confidence_of p = inr (raw_confidence p) /\
    class_or_label p = inr (label_of p) /\
    field "confidence" resp = Some (raw_confidence p) /\
    field "detectedIssue" resp = Some (label_of p).
Proof.
  apply (validate_selects_first_maximum str_plain str_exn
           (client_returning (raw_with tied_predictions)) image_request
           (PStr "http://host/road.jpg") (raw_with tied_predictions)
           tied_predictions).
  - exists (PDict [("image_url", PStr "http://host/road.jpg")]).
    repeat split; reflexivity.
  - reflexivity.
  - exists [("output2", PDict [("predictions", PList tied_predictions)])], [],
      [("predictions", PList tied_predictions)].
    repeat split; reflexivity.
  - discriminate.
  - repeat constructor; eexists; reflexivity.
Defined.

Example validate_tie_reports_first :
  let resp :=
    validate_image str_plain str_exn
      (client_returning (raw_with tied_predictions)) image_request in
  field "confidence" resp = Some f_0_9 /\
  field "detectedIssue" resp = Some (PStr "pothole").
Proof. split; reflexivity. Qed.

(** ** The normalized list and its top confidence *)

(** What /analyze extracts from a raw result with a well-typed prediction
    list, or with none. *)
Lemma analyze_extract_on (r : pyval) (L : list pyval) :
  (has_predictions r L /\ Forall well_typed_pred L) \/
  (no_predictions r /\ L = []) ->
  exists c,
    analyze_extract r = inr (map normalized L, c) /\
    Forall is_record L /\
    (L = [] -> c = PInt 0) /\
    (L <> [] -> is_maximum c (map raw_confidence L)).
Proof.
  assert (Hnone : no_predictions r -> L = [] ->
    exists c,
      analyze_extract r = inr (map normalized L, c) /\
      Forall is_record L /\
      (L = [] -> c = PInt 0) /\
      (L <> [] -> is_maximum c (map raw_confidence L))).
  { intros Hn ->. destruct (extract_no_predictions r Hn) as [-> _].
    exists (PInt 0). split; [reflexivity|]. split; [constructor|].
    split; [reflexivity | congruence]. }
  intros [[Hr HL] | [Hn HLe]]; [|now apply Hnone].
  destruct L as [|x xs].
  { apply Hnone; [|reflexivity].
    destruct Hr as (o & rest & o2 & -> & Ho & Hp).
    now apply (np_falsy_predictions o rest o2 (PList [])). }
  assert (Hne : x :: xs <> []) by discriminate.
  destruct (decide_on_predictions r _ Hr Hne HL)
    as (l1 & b & l2 & allow & HLeq & H1 & H2 & -> & _ & _).
  exists (raw_confidence b). repeat split.
  - eapply Forall_impl; [|exact HL]. intros p [Hp _]. exact Hp.
  - discriminate.
  - apply in_map. rewrite HLeq. apply in_or_app. right. now left.
  - apply (first_maximum_is_maximum _ l1 l2 b HL HLeq H1 H2).
Qed.

(** C7.  The confidence /analyze returns is a greatest element of the
    confidences of the normalized list it returns, and 0 when that list is
    empty; the normalized list has one entry per source prediction, in the
    source order. *)
Theorem analyze_confidence_is_maximum
  exn_str run_workflow (req : M pyval) (src r : pyval) (L : list pyval) :
  has_image_source req src ->
  workflow_yields run_workflow src (inr r) ->
  (has_predictions r L /\ Forall well_typed_pred L) \/
  (no_predictions r /\ L = []) ->
  let resp := analyze_image exn_str run_workflow req in
  exists N c,
    status resp = 200 /\
    field "predictions" resp = Some (PList N) /\
    field "confidence" resp = Some c /\
    List.length N = List.length L /\
    Forall2 (fun p n => normalize_pred p = inr n) L N /\
    (N = [] -> c = PInt 0) /\
    (N <> [] ->
     exists cs, map (field_of "confidence") N = map Some cs /\ is_maximum c cs).
Proof.
  intros Hreq Hw HrL resp. unfold resp.
  rewrite (analyze_image_on _ _ _ _ _ Hreq Hw).
  destruct (analyze_extract_on r L HrL) as (c & -> & Hrec & H0 & Hmax).
  exists (map normalized L), c.
  split; [reflexivity|]. split; [reflexivity|]. split; [reflexivity|].
  split; [apply length_map|]. split; [|split].
  - clear - Hrec. induction Hrec; simpl; constructor; auto.
    now apply normalize_pred_record.
  - intros HN. apply H0. now apply map_eq_nil in HN.
  - intros HN. exists (map raw_confidence L). split.
    + rewrite !map_map. reflexivity.
    + apply Hmax. intros ->. now apply HN.
Qed.

Lemma analyze_confidence_is_maximum_witness :
  let resp :=
    analyze_image str_exn (client_returning (raw_with tied_predictions))
      image_request in
  exists N c,
    status resp = 200 /\
    field "predictions" resp = Some (PList N) /\
    field "confidence" resp = Some c /\
    List.length N = List.length tied_predictions /\
    Forall2 (fun p n => normalize_pred p = inr n) tied_predictions N /\
    (N = [] -> c = PInt 0) /\
    (N <> [] ->
     exists cs, map (field_of "confidence") N = map Some cs /\ is_maximum c cs).
Proof.
  apply (analyze_confidence_is_maximum str_exn
           (client_returning (raw_with tied_predictions)) image_request
           (PStr "http://host/road.jpg") (raw_with tied_predictions)
           tied_predictions).
  - exists (PDict [("image_url", PStr "http://host/road.jpg")]).
    repeat split; reflexivity.
  - reflexivity.
  - left. split.
    + exists [("output2", PDict [("predictions", PList tied_predictions)])], [],
        [("predictions", PList tied_predictions)].
      repeat split; reflexivity.
    + repeat constructor; eexists; reflexivity.
Defined.

Example analyze_tied_predictions :
  analyze_image str_exn (client_returning (raw_with tied_predictions))
    image_request
  = (jsonify
       [("success", PBool true);
        ("predictions",
         PList [PDict [("class", PStr "crack"); ("confidence", f_0_82)];
                PDict [("class", PStr "pothole"); ("confidence", f_0_9)];
                PDict [("class", PStr "garbage"); ("confidence", f_0_9)]]);
        ("confidence", f_0_9);
        ("raw_result", raw_with tied_predictions)], 200).
Proof. reflexivity. Qed.

(** ** The two extraction paths *)

(** C9.  On every raw result the two extraction paths agree: the top
    confidence /analyze computes (the maximum of the confidences, a
    missing one counting as 0) is [c] exactly when the confidence
    /validate computes (that of the selected prediction) is [c].  When
    the confidences are numbers, the two responses carry that same
    [confidence]. *)
Theorem analyze_and_validate_agree_on_confidence (r : pyval) :
  (forall c,
     (exists ps, analyze_extract r = inr (ps, c)) <->
     (exists d, validate_select r = inr (c, d))) /\
  (forall py_str exn_str run_workflow (req : M pyval) (src : pyval),
     has_image_source req src ->
     workflow_yields run_workflow src (inr r) ->
     (forall L, has_predictions r L -> Forall numeric_pred L) ->
     let a := analyze_image exn_str run_workflow req in
     let v := validate_image py_str exn_str run_workflow req in
     forall c,
       (status a = 200 /\ field "confidence" a = Some c) <->
       (status v = 200 /\ field "confidence" v = Some c)).
Proof.
  split.
  - intros c.
    destruct (extract_shape r)
      as [[-> ->] | [[(e1 & ->) (e2 & ->)] | (L & Hr & Hne & Hrec)]].
    + split; intros [x H]; inversion H; subst; eauto.
    + split; intros [x H]; discriminate H.
    + destruct (extract_with_predictions r L Hr Hne Hrec) as [-> ->].
      destruct (py_max confidence_of L) as [e|b]; cbn [bind ret].
      * split; intros [x H]; discriminate H.
      * split; intros [x H]; inversion H; subst; eauto.
  - intros py_str exn_str run_workflow req src Hreq Hw Hnum a v c.
    unfold a, v.
    rewrite (analyze_image_on _ _ _ _ _ Hreq Hw).
    rewrite (validate_image_on _ _ _ _ _ _ Hreq Hw).
    rewrite validate_decide_select.
    destruct (extract_shape r)
      as [[-> ->] | [[(e1 & ->) (e2 & ->)] | (L & Hr & Hne & Hrec)]].
    + split; intros [_ H]; (split; [reflexivity | exact H]).
    + split; intros [H _]; discriminate H.
    + destruct (extract_with_predictions r L Hr Hne Hrec) as [-> ->].
      destruct (py_max confidence_of L) as [e|b] eqn:Hb; cbn [bind ret].
      * split; intros [H _]; discriminate H.
      * assert (Nb : is_number (raw_confidence b) = true).
        { apply py_max_member in Hb.
          apply (proj1 (Forall_forall numeric_pred L) (Hnum L Hr) b Hb). }
        destruct (py_ge_number (raw_confidence b) threshold Nb eq_refl)
          as (allow & -> & _).
        cbn [bind ret].
        split; intros [_ H]; (split; [reflexivity | exact H]).
Qed.

Lemma analyze_and_validate_agree_on_confidence_witness :
  let a :=
    analyze_image str_exn (client_returning (raw_with tied_predictions))
      image_request in
  let v :=
    validate_image str_plain str_exn
      (client_returning (raw_with tied_predictions)) image_request in
  (status a = 200 /\ field "confidence" a = Some f_0_9) <->
  (status v = 200 /\ field "confidence" v = Some f_0_9).
Proof.
  apply (proj2 (analyze_and_validate_agree_on_confidence
                  (raw_with tied_predictions))
           str_plain str_exn
           (client_returning (raw_with tied_predictions)) image_request
           (PStr "http://host/road.jpg")).
  - exists (PDict [("image_url", PStr "http://host/road.jpg")]).
    repeat split; reflexivity.
  - reflexivity.
  - intros L (o & rest & o2 & Hr & Ho & Hp).
    injection Hr as <- <-. injection Ho as <-. injection Hp as <-.
    repeat constructor.
Defined.

(** A confidence that is present but null: the two paths compute the
    same value, /analyze reports it, and the threshold test of /validate
    raises on it. *)
Example null_confidence_paths :
  let r := raw_with [PDict [("class", PStr "pothole"); ("confidence", PNone)]] in
  analyze_extract r
  = inr ([PDict [("class", PStr "pothole"); ("confidence", PNone)]], PNone) /\
  validate_select r = inr (PNone, PStr "pothole") /\
  validate_decide r = inl (TypeError_order OpGe TNoneType TFloat).
Proof. repeat split. Qed.

(** ** What every /validate response guarantees *)

Lemma validate_decide_allows (r c d : pyval) :
  validate_decide r = inr (c, d, PBool true) -> py_le threshold c.
Proof.
  unfold validate_decide, py_le.
  destruct r as [|b|z|f|s|l|dd]; try discriminate.
  destruct l as [|output rest]; [discriminate|].
  destruct (has_model_predictions output) as [e|[]]; cbn [bind];
    try discriminate.
  destruct (model_predictions_of output) as [e|mp]; cbn [bind];
    try discriminate.
  destruct (truthy mp); [|discriminate].
  destruct (py_iter mp) as [e|items]; cbn [bind]; try discriminate.
  destruct (py_max confidence_of items) as [e|best]; cbn [bind];
    try discriminate.
  destruct (confidence_of best) as [e|conf]; cbn [bind]; try discriminate.
  destruct (class_or_label best) as [e|lbl]; cbn [bind]; try discriminate.
  destruct (py_compare OpGe conf threshold) as [e|allow] eqn:Hc; cbn [bind];
    try discriminate.
  intros [= <- _ ->]. exact Hc.
Qed.

(** C10.  Whatever the request and whatever the collaborator does, a
    /validate response that carries [allowUpload] true is a 200 response
    whose reported confidence is at least 0.7; the 400 and 500 responses
    never carry [allowUpload] true. *)
Theorem validate_allow_implies_confidence
  py_str exn_str run_workflow (req : M pyval) :
  let resp := validate_image py_str exn_str run_workflow req in
  (field "allowUpload" resp = Some (PBool true) ->
   status resp = 200 /\
   exists c, field "confidence" resp = Some c /\ py_le threshold c) /\
  (status resp = 400 \/ status resp = 500 ->
   field "allowUpload" resp <> Some (PBool true)).
Proof.
  intros resp. unfold resp. rewrite validate_image_cases.
  destruct req as [e|data]; [split; [discriminate | intros _; discriminate]|].
  destruct (image_source_of data) as [e|src];
    [split; [discriminate | intros _; discriminate]|].
  destruct (truthy src); cbn [negb];
    [|split; [discriminate | intros _; discriminate]].
  destruct (run_workflow _ _ _ _) as [e|r];
    [split; [discriminate | intros _; discriminate]|].
  destruct (validate_decide r) as [e|[[c d] allow]] eqn:Hd;
    [split; [discriminate | intros _; discriminate]|].
  split.
  - intros H.
    change (field "allowUpload" (validate_success py_str c d allow))
      with (Some allow) in H.
    injection H as ->. split; [reflexivity|].
    exists c. split; [reflexivity|]. now apply (validate_decide_allows r c d).
  - intros [H | H]; discriminate H.
Qed.

Lemma validate_allow_implies_confidence_witness :
  (let resp :=
     validate_image str_plain str_exn
       (client_returning (raw_with tied_predictions)) image_request in
   status resp = 200 /\
   exists c, field "confidence" resp = Some c /\ py_le threshold c) /\
  (let resp :=
     validate_image str_plain str_exn (client_raising "connection refused")
       image_request in
   field "allowUpload" resp <> Some (PBool true)).
Proof.
  split.
  - apply (proj1 (validate_allow_implies_confidence str_plain str_exn
                    (client_returning (raw_with tied_predictions))
                    image_request)).
    reflexivity.
  - apply (proj2 (validate_allow_implies_confidence str_plain str_exn
                    (client_raising "connection refused") image_request)).
    right. reflexivity.
Defined.

(** ** Exceptions *)

(** C8.  When the collaborator call raises [e], or it returns a result
    whose processing raises [e], /validate answers 500 with a body that
    carries the text of [e], confidence 0 and [allowUpload] false. *)
Theorem validate_exception_is_denial
  py_str exn_str run_workflow (req : M pyval) (src : pyval) (e : pyexn) :
  has_image_source req src ->
  workflow_yields run_workflow src (inl e) \/
  (exists r, workflow_yields run_workflow src (inr r) /\
             validate_decide r = inl e) ->
  let resp := validate_image py_str exn_str run_workflow req in
  status resp = 500 /\
  body resp = jsonify [("success", PBool false);
                       ("error", PStr (exn_str e));
                       ("confidence", PInt 0);
                       ("allowUpload", PBool false)] /\
  field "error" resp = Some (PStr (exn_str e)) /\
  field "confidence" resp = Some (PInt 0) /\
  field "allowUpload" resp = Some (PBool false).
Proof.
  intros (data & -> & Hsrc & Ht) Hraise resp. unfold resp.
  rewrite validate_image_cases, Hsrc, Ht. cbn [negb].
  unfold workflow_yields in Hraise.
  destruct Hraise as [-> | (r & -> & ->)]; repeat split.
Qed.

Lemma validate_exception_is_denial_witness :
  (let resp :=
     validate_image str_plain str_exn (client_raising "connection refused")
       image_request in
   status resp = 500 /\
   field "error" resp = Some (PStr "connection refused") /\
   field "confidence" resp = Some (PInt 0) /\
   field "allowUpload" resp = Some (PBool false)) /\
  (let resp :=
     validate_image str_plain str_exn
       (client_returning (raw_with [PStr "pothole"])) image_request in
   status resp = 500 /\
   field "error" resp = Some (PStr "'str' object has no attribute 'get'") /\
   field "confidence" resp = Some (PInt 0) /\
   field "allowUpload" resp = Some (PBool false)).
Proof.
  split.
  - destruct (validate_exception_is_denial str_plain str_exn
                (client_raising "connection refused") image_request
                (PStr "http://host/road.jpg") (Raised "connection refused"))
      as (H1 & _ & H2 & H3 & H4).
    + exists (PDict [("image_url", PStr "http://host/road.jpg")]).
      repeat split; reflexivity.
    + left. reflexivity.
    + repeat split; assumption.
  - destruct (validate_exception_is_denial str_plain str_exn
                (client_returning (raw_with [PStr "pothole"])) image_request
                (PStr "http://host/road.jpg") (AttributeError TStr "get"))
      as (H1 & _ & H2 & H3 & H4).
    + exists (PDict [("image_url", PStr "http://host/road.jpg")]).
      repeat split; reflexivity.
    + right. exists (raw_with [PStr "pothole"]). split; reflexivity.
    + repeat split; assumption.
Defined.

(** ** Raw results without predictions *)

(** A first bundle whose [output2] is null: the membership test on it
    raises, and both handlers answer 500; /analyze reports neither a
    prediction list nor a confidence. *)
Lemma null_output2_is_server_error :
  let r := PList [PDict [("output2", PNone)]] in
  let a := analyze_image str_exn (client_returning r) image_request in
  let v := validate_image str_plain str_exn (client_returning r) image_request in
  (forall L, ~ has_predictions r L) /\
  analyze_extract r = inl (TypeError_in TNoneType) /\
  status a = 500 /\
  field "predictions" a = None /\
  field "confidence" a = None /\
  status v = 500.
Proof.
  repeat split; try reflexivity.
  intros L (o & rest & o2 & Hr & Ho & Hp).
  injection Hr as <- <-. discriminate Ho.
Qed.

(** C2 (amended).  Every raw result gets a 200 or a 500 response from
    both handlers.  When the raw result is absent or empty, is not a
    sequence, or lacks [output2] in its first bundle or [predictions]
    under it (or holds an empty one), both answer 200: /analyze with an
    empty prediction list and confidence 0, /validate with confidence 0,
    no detected issue and [allowUpload] false. *)
Theorem missing_keys_give_empty_result
  py_str exn_str run_workflow (req : M pyval) (src r : pyval) :
  has_image_source req src ->
  workflow_yields run_workflow src (inr r) ->
  let a := analyze_image exn_str run_workflow req in
  let v := validate_image py_str exn_str run_workflow req in
  (status a = 200 \/ status a = 500) /\
  (status v = 200 \/ status v = 500) /\
  (no_predictions r ->
   a = (jsonify [("success", PBool true);
                 ("predictions", PList []);
                 ("confidence", PInt 0);
                 ("raw_result", r)], 200) /\
   v = (jsonify [("success", PBool true);
                 ("confidence", PInt 0);
                 ("modelConfidence", PInt 0);
                 ("allowUpload", PBool false);
                 ("message", PStr "No civic issue detected");
                 ("detectedIssue", PNone)], 200)).
Proof.
  intros Hreq Hw a v. unfold a, v.
  rewrite (analyze_image_on _ _ _ _ _ Hreq Hw).
  rewrite (validate_image_on _ _ _ _ _ _ Hreq Hw).
  split; [|split].
  - destruct (analyze_extract r) as [e|[ps c]]; [right | left]; reflexivity.
  - destruct (validate_decide r) as [e|[[c d] al]]; [right | left]; reflexivity.
  - intros Hn. destruct (extract_no_predictions r Hn) as [-> ->].
    split; reflexivity.
Qed.

Lemma missing_keys_give_empty_result_witness :
  let r := PList [PDict [("output1", PInt 3)]] in
  let a := analyze_image str_exn (client_returning r) image_request in
  let v := validate_image str_plain str_exn (client_returning r) image_request in
  a = (jsonify [("success", PBool true);
                ("predictions", PList []);
                ("confidence", PInt 0);
                ("raw_result", r)], 200) /\
  v = (jsonify [("success", PBool true);
                ("confidence", PInt 0);
                ("modelConfidence", PInt 0);
                ("allowUpload", PBool false);
                ("message", PStr "No civic issue detected");
                ("detectedIssue", PNone)], 200).
Proof.
  intros r a v.
  apply (proj2 (proj2 (missing_keys_give_empty_result str_plain str_exn
                         (client_returning r) image_request
                         (PStr "http://host/road.jpg") r
                         (ex_intro _ (PDict [("image_url",
                                              PStr "http://host/road.jpg")])
                            (conj eq_refl (conj eq_refl eq_refl)))
                         eq_refl))).
  apply np_no_output2. reflexivity.
Defined.

(** ** The message *)

(** A single prediction at 0.9 with neither [class] nor [label]: the
    list is non-empty and the upload is allowed, yet the message is the
    one for no detection, not "Detected Issue: None". *)
Lemma unlabelled_detection_message :
  let L := [PDict [("confidence", f_0_9)]] in
  let resp :=
    validate_image str_plain str_exn (client_returning (raw_with L))
      image_request in
  has_predictions (raw_with L) L /\ L <> [] /\
  field "allowUpload" resp = Some (PBool true) /\
  field "detectedIssue" resp = Some PNone /\
  field "message" resp = Some (PStr "No civic issue detected") /\
  field "message" resp <> Some (PStr ("Detected Issue: " ++ str_plain PNone)).
Proof.
  repeat split; try reflexivity; try discriminate.
  eexists _, _, _. repeat split; reflexivity.
Qed.

(** C3 (amended).  In every 200 response of /validate the message is
    "Detected Issue: " followed by the rendered [detectedIssue] when the
    reported [detectedIssue] is truthy (a label that is neither null nor
    empty), and "No civic issue detected" otherwise. *)
Theorem validate_message_follows_label
  py_str exn_str run_workflow (req : M pyval) :
  let resp := validate_image py_str exn_str run_workflow req in
  status resp = 200 ->
  exists d,
    field "detectedIssue" resp = Some d /\
    field "message" resp =
      Some (PStr (if truthy d
                  then "Detected Issue: " ++ py_str d
                  else "No civic issue detected")).
Proof.
  intros resp. unfold resp. rewrite validate_image_cases.
  destruct req as [e|data]; [discriminate|].
  destruct (image_source_of data) as [e|src]; [discriminate|].
  destruct (truthy src); cbn [negb]; [|discriminate].
  destruct (run_workflow _ _ _ _) as [e|r]; [discriminate|].
  destruct (validate_decide r) as [e|[[c d] allow]]; [discriminate|].
  intros _. exists d. split; [reflexivity|].
  unfold validate_success, validate_message, field. simpl.
  destruct (truthy d); reflexivity.
Qed.

Lemma validate_message_follows_label_witness :
  let resp :=
    validate_image str_plain str_exn
      (client_returning (raw_with tied_predictions)) image_request in
  exists d,
    field "detectedIssue" resp = Some d /\
    field "message" resp =
      Some (PStr (if truthy d
                  then "Detected Issue: " ++ str_plain d
                  else "No civic issue detected")).
Proof.
  apply (validate_message_follows_label str_plain str_exn
           (client_returning (raw_with tied_predictions)) image_request).
  reflexivity.
Defined.

(** ** Normalizing a prediction record *)

(** A record with an empty [class] and a [label]: the field is present,
    yet the label is taken. *)
Lemma empty_class_falls_back_to_label :
  let d := [("class", PStr ""); ("label", PStr "pothole")] in
  normalize_pred (PDict d)
  = inr (PDict [("class", PStr "pothole"); ("confidence", PInt 0)]) /\
  spec_class_label d = PStr "" /\
  normalize_pred (PDict d)
  <> inr (PDict [("class", spec_class_label d); ("confidence", PInt 0)]).
Proof. repeat split; try reflexivity. discriminate. Qed.

(** C4 (amended).  A raw prediction record is normalized to the pair of:
    its [class] field when that field is present and truthy, else its
    [label] field when present, else null; and its [confidence] field when
    present (whatever its value), else 0. *)
Theorem normalize_pred_rule (d : list (string * pyval)) :
  let class_label :=
    match dict_get "class" d with
    | Some v =>
        if truthy v then v
        else match dict_get "label" d with
             | Some w => w
             | None => PNone
             end
    | None =>
        match dict_get "label" d with
        | Some w => w
        | None => PNone
        end
    end in
  let confidence :=
    match dict_get "confidence" d with
    | Some v => v
    | None => PInt 0
    end in
  normalize_pred (PDict d)
  = inr (PDict [("class", class_label); ("confidence", confidence)]) /\
  class_or_label (PDict d) = inr class_label /\
  confidence_of (PDict d) = inr confidence.
Proof.
  assert (Hd : is_record (PDict d)) by (eexists; reflexivity).
  rewrite (normalize_pred_record _ Hd), (class_or_label_record _ Hd),
    (confidence_of_record _ Hd).
  unfold normalized, label_of, class_label_rule, raw_confidence.
  destruct (dict_get "class" d) as [v|]; [destruct (truthy v)|];
    repeat split; reflexivity.
Qed.

(** ** Requests without an image source *)

(** The empty body and the absent body: /analyze answers "No data
    provided"; on the absent body /validate answers 500. *)
Lemma empty_body_is_no_data :
  analyze_image str_exn (client_raising "unused") (inr (PDict []))
  = no_data_response /\
  analyze_image str_exn (client_raising "unused") (inr PNone)
  = no_data_response /\
  field "error" no_data_response <> Some (PStr "No image source provided") /\
  status (validate_image str_plain str_exn (client_raising "unused")
            (inr PNone)) = 500.
Proof. repeat split; try reflexivity. discriminate. Qed.

(** C5 (amended).  For every body that is a JSON object with none of
    [image_path], [image_url] and [image], whatever else it holds,
    /validate answers 400 with "No image source provided", and so does
    /analyze unless the object is empty; to the empty object, as to an
    absent body, /analyze answers 400 with "No data provided". *)
Theorem missing_image_source_is_400
  py_str exn_str run_workflow (d : list (string * pyval)) :
  dict_get "image_path" d = None ->
  dict_get "image_url" d = None ->
  dict_get "image" d = None ->
  validate_image py_str exn_str run_workflow (inr (PDict d))
  = (jsonify [("success", PBool false);
              ("error", PStr "No image source provided")], 400) /\
  (d <> [] ->
   analyze_image exn_str run_workflow (inr (PDict d))
   = (jsonify [("success", PBool false);
               ("error", PStr "No image source provided")], 400)) /\
  (d = [] ->
   analyze_image exn_str run_workflow (inr (PDict d))
   = (jsonify [("success", PBool false);
               ("error", PStr "No data provided")], 400)) /\
  analyze_image exn_str run_workflow (inr PNone)
  = (jsonify [("success", PBool false);
              ("error", PStr "No data provided")], 400).
Proof.
  intros Hp Hu Hi.
  assert (Hsrc : image_source_of (PDict d) = inr PNone).
  { unfold image_source_of, py_or. simpl. rewrite Hp, Hu, Hi. reflexivity. }
  rewrite validate_image_cases, analyze_image_cases, Hsrc.
  repeat split.
  - intros Hd. destruct d; [congruence | reflexivity].
  - intros ->. reflexivity.
Qed.

Lemma missing_image_source_is_400_witness :
  let d := [("note", PStr "street lamp"); ("lat", PInt 12)] in
  validate_image str_plain str_exn (client_raising "unused") (inr (PDict d))
  = missing_source_response /\
  analyze_image str_exn (client_raising "unused") (inr (PDict d))
  = missing_source_response.
Proof.
  intros d.
  destruct (missing_image_source_is_400 str_plain str_exn
              (client_raising "unused") d eq_refl eq_refl eq_refl)
    as (Hv & Ha & _).
  split; [exact Hv | apply Ha; discriminate].
Defined.

(** * Further properties of the handlers *)

(** ** Helpers *)

Lemma has_source_truthy_body (data src : pyval) :
  image_source_of data = inr src -> truthy src = true -> truthy data = true.
Proof.
  intros Hsrc Ht. destruct data; simpl in Hsrc; try discriminate.
  destruct d; [|reflexivity]. simpl in Hsrc. injection Hsrc as <-.
  discriminate.
Qed.

(** The selection and the extraction succeed together, on one value. *)
Lemma select_then_extract (r c d : pyval) :
  validate_select r = inr (c, d) -> exists ps, analyze_extract r = inr (ps, c).
Proof.
  destruct (extract_shape r)
    as [[-> ->] | [[(e1 & ->) (e2 & ->)] | (L & Hr & Hne & Hrec)]].
  - intros H. inversion H; subst. eauto.
  - discriminate.
  - destruct (extract_with_predictions r L Hr Hne Hrec) as [-> ->].
    destruct (py_max confidence_of L) as [e|b]; cbn [bind ret];
      [discriminate|].
    intros H. inversion H; subst. eauto.
Qed.

Lemma extract_then_select (r c : pyval) (ps : list pyval) :
  analyze_extract r = inr (ps, c) -> exists d, validate_select r = inr (c, d).
Proof.
  destruct (extract_shape r)
    as [[-> ->] | [[(e1 & ->) (e2 & ->)] | (L & Hr & Hne & Hrec)]].
  - intros H. inversion H; subst. eauto.
  - discriminate.
  - destruct (extract_with_predictions r L Hr Hne Hrec) as [-> ->].
    destruct (py_max confidence_of L) as [e|b]; cbn [bind ret];
      [discriminate|].
    intros H. inversion H; subst. eauto.
Qed.

Lemma decide_inv (r c d a : pyval) :
  validate_decide r = inr (c, d, a) ->
  exists b, a = PBool b /\ validate_select r = inr (c, d) /\
            py_compare OpGe c threshold = inr b.
Proof.
  rewrite validate_decide_select.
  destruct (validate_select r) as [e|[c' d']]; cbn [bind]; [discriminate|].
  destruct (py_compare OpGe c' threshold) as [e|b] eqn:Hc; cbn [bind ret];
    [discriminate|].
  intros H. inversion H; subst. eauto.
Qed.

Lemma has_predictions_empty (r : pyval) :
  has_predictions r [] ->
  analyze_extract r = inr ([], PInt 0) /\
  validate_decide r = inr (PInt 0, PNone, PBool false).
Proof.
  intros (o & rest & o2 & -> & Ho & Hp). apply extract_no_predictions.
  now apply (np_falsy_predictions o rest o2 (PList [])).
Qed.

(** ** Exceptions in /analyze *)

(** X1.  /analyze answers 500 exactly when something raises inside its
    [try] block, and the body is then [success] false with the text of
    the exception and nothing else. *)
Theorem analyze_exception_is_server_error
  exn_str run_workflow (req : M pyval) :
  let a := analyze_image exn_str run_workflow req in
  (forall e, analyze_raises run_workflow req e ->
     a = (jsonify [("success", PBool false);
                   ("error", PStr (exn_str e))], 500)) /\
  (status a = 500 -> exists e, analyze_raises run_workflow req e).
Proof.
  intros a. unfold a. rewrite analyze_image_cases. split.
  - intros e [-> | [(data & -> & Ht & Hs) | (src & (data & -> & Hs & Ht) & Hw)]].
    + reflexivity.
    + rewrite Ht, Hs. reflexivity.
    + rewrite (has_source_truthy_body data src Hs Ht), Hs, Ht. cbn [negb].
      unfold workflow_yields in Hw.
      destruct Hw as [-> | (r & -> & ->)]; reflexivity.
  - destruct req as [e|data]; [intros _; exists e; now left|].
    destruct (truthy data) eqn:Ht; cbn [negb]; [|discriminate].
    destruct (image_source_of data) as [e|src] eqn:Hs.
    { intros _. exists e. right. left. eauto. }
    destruct (truthy src) eqn:Hts; cbn [negb]; [|discriminate].
    assert (Hsrc : has_image_source (inr data) src) by (exists data; auto).
    destruct (run_workflow _ _ _ _) as [e|r] eqn:Hw.
    { intros _. exists e. right. right. exists src. split; auto. }
    destruct (analyze_extract r) as [e|[ps c]] eqn:He; [|discriminate].
    intros _. exists e. right. right. exists src. split; auto.
    right. exists r. split; auto.
Qed.

Lemma analyze_exception_is_server_error_witness :
  analyze_image str_exn (client_raising "connection refused") image_request
  = (jsonify [("success", PBool false);
              ("error", PStr "connection refused")], 500) /\
  exists e, analyze_raises (client_raising "connection refused")
              image_request e.
Proof.
  destruct (analyze_exception_is_server_error str_exn
              (client_raising "connection refused") image_request)
    as [H1 H2].
  split.
  - apply (H1 (Raised "connection refused")).
    right. right. exists (PStr "http://host/road.jpg"). split.
    + exists (PDict [("image_url", PStr "http://host/road.jpg")]).
      repeat split; reflexivity.
    + left. reflexivity.
  - apply H2. reflexivity.
Defined.

(** ** Bodies that are not objects *)

(** X2.  A request body that is not a JSON object has no [.get]:
    /validate answers 500 (with confidence 0 and [allowUpload] false) for
    every such body; /analyze answers 400 "No data provided" when the
    body is falsy and the same 500 when it is truthy. *)
Theorem non_object_body
  py_str exn_str run_workflow (data : pyval) :
  type_of data <> TDict ->
  let e := AttributeError (type_of data) "get" in
  validate_image py_str exn_str run_workflow (inr data)
  = (jsonify [("success", PBool false);
              ("error", PStr (exn_str e));
              ("confidence", PInt 0);
              ("allowUpload", PBool false)], 500) /\
  analyze_image exn_str run_workflow (inr data)
  = if truthy data
    then (jsonify [("success", PBool false);
                   ("error", PStr (exn_str e))], 500)
    else (jsonify [("success", PBool false);
                   ("error", PStr "No data provided")], 400).
Proof.
  intros Hd e. rewrite validate_image_cases, analyze_image_cases.
  destruct data; try (now elim Hd); simpl; split; try reflexivity;
    match goal with
    | |- context [negb ?b] => destruct b; reflexivity
    end.
Qed.

Lemma non_object_body_witness :
  validate_image str_plain str_exn (client_raising "unused") (inr PNone)
  = (jsonify [("success", PBool false);
              ("error", PStr "'NoneType' object has no attribute 'get'");
              ("confidence", PInt 0);
              ("allowUpload", PBool false)], 500) /\
  analyze_image str_exn (client_raising "unused") (inr PNone)
  = (jsonify [("success", PBool false);
              ("error", PStr "No data provided")], 400).
Proof.
  apply (non_object_body str_plain str_exn (client_raising "unused") PNone).
  discriminate.
Defined.

(** ** The image source *)

Lemma image_source_of_dict (d : list (string * pyval)) :
  image_source_of (PDict d)
  = inr (match find truthy (source_candidates d) with
         | Some v => v
         | None =>
             match dict_get "image" d with
             | Some v => v
             | None => PNone
             end
         end).
Proof.
  unfold image_source_of, source_candidates, py_or. simpl.
  destruct (dict_get "image_path" d) as [p|]; simpl.
  - destruct (truthy p) eqn:Hp; simpl; [reflexivity|].
    destruct (dict_get "image_url" d) as [u|]; simpl.
    + destruct (truthy u) eqn:Hu; simpl; [reflexivity|].
      destruct (dict_get "image" d) as [i|]; simpl; [|reflexivity].
      destruct (truthy i); reflexivity.
    + destruct (dict_get "image" d) as [i|]; simpl; [|reflexivity].
      destruct (truthy i); reflexivity.
  - destruct (dict_get "image_url" d) as [u|]; simpl.
    + destruct (truthy u) eqn:Hu; simpl; [reflexivity|].
      destruct (dict_get "image" d) as [i|]; simpl; [|reflexivity].
      destruct (truthy i); reflexivity.
    + destruct (dict_get "image" d) as [i|]; simpl; [|reflexivity].
      destruct (truthy i); reflexivity.
Qed.

Lemma no_candidate_falsy_source (d : list (string * pyval)) :
  find truthy (source_candidates d) = None ->
  truthy (match dict_get "image" d with Some v => v | None => PNone end)
  = false.
Proof.
  unfold source_candidates. simpl.
  destruct (dict_get "image_path" d) as [p|];
    destruct (dict_get "image_url" d) as [u|];
    destruct (dict_get "image" d) as [i|]; simpl;
    repeat match goal with
    | |- context [truthy ?x] => destruct (truthy x)
    end; try discriminate; reflexivity.
Qed.

(** X3.  For a body that is a JSON object, the image source is the first
    truthy value among [image_path], [image_url], [image], read in that
    order (a key holding an empty string or null counts as missing); both
    handlers answer 400 exactly when there is no such value. *)
Theorem image_source_is_first_truthy
  py_str exn_str run_workflow (d : list (string * pyval)) :
  (forall src,
     has_image_source (inr (PDict d)) src <->
     find truthy (source_candidates d) = Some src) /\
  (status (validate_image py_str exn_str run_workflow (inr (PDict d))) = 400 <->
   find truthy (source_candidates d) = None) /\
  (status (analyze_image exn_str run_workflow (inr (PDict d))) = 400 <->
   find truthy (source_candidates d) = None).
Proof.
  pose proof (image_source_of_dict d) as Hs.
  pose proof (no_candidate_falsy_source d) as Hn.
  rewrite validate_image_cases, analyze_image_cases, Hs.
  destruct (find truthy (source_candidates d)) as [v|] eqn:Hf.
  - apply find_some in Hf. destruct Hf as [_ Hv].
    assert (Hd : truthy (PDict d) = true).
    { apply (has_source_truthy_body _ v); [now rewrite Hs | exact Hv]. }
    rewrite Hd, Hv. cbn [negb]. split; [|split].
    + intros src. split.
      * intros (data & [= <-] & Hsrc & _). rewrite Hs in Hsrc.
        now injection Hsrc as <-.
      * intros [= <-]. exists (PDict d). rewrite Hs. auto.
    + split; [|discriminate].
      destruct (run_workflow _ _ _ _) as [e|r]; [discriminate|].
      destruct (validate_decide r) as [e|[[c dd] a]]; discriminate.
    + split; [|discriminate].
      destruct (run_workflow _ _ _ _) as [e|r]; [discriminate|].
      destruct (analyze_extract r) as [e|[ps c]]; discriminate.
  - rewrite (Hn eq_refl). cbn [negb]. split; [|split].
    + intros src. split; [|discriminate].
      intros (data & [= <-] & Hsrc & Ht). rewrite Hs in Hsrc.
      injection Hsrc as <-. rewrite (Hn eq_refl) in Ht. discriminate.
    + split; reflexivity.
    + split; [reflexivity|]. intros _.
      destruct (negb (truthy (PDict d))); reflexivity.
Qed.

(** A body whose [image_path] is empty: the URL is the source. *)
Example empty_path_falls_back_to_url :
  has_image_source
    (inr (PDict [("image_path", PStr ""); ("image_url", PStr "http://h/a.jpg");
                 ("image", PStr "inline")]))
    (PStr "http://h/a.jpg").
Proof. eexists. repeat split; reflexivity. Qed.

(** ** The workflow call *)

(** X4.  A response depends on the collaborator through one call only:
    the workflow [custom-workflow-6] of workspace [civicrezo], on the
    image source under the key [image], with the cache on.  Two
    collaborators that agree there get the same response from either
    handler; a request without an image source gets the same response
    from any collaborator. *)
Theorem response_depends_on_one_workflow_call
  py_str exn_str run_workflow1 run_workflow2 (req : M pyval) :
  (forall src,
     has_image_source req src ->
     run_workflow1 "civicrezo" "custom-workflow-6"
       (PDict [("image", src)]) true
     = run_workflow2 "civicrezo" "custom-workflow-6"
         (PDict [("image", src)]) true) ->
  analyze_image exn_str run_workflow1 req
  = analyze_image exn_str run_workflow2 req /\
  validate_image py_str exn_str run_workflow1 req
  = validate_image py_str exn_str run_workflow2 req.
Proof.
  intros Hsame. rewrite !validate_image_cases, !analyze_image_cases.
  destruct req as [e|data]; [split; reflexivity|].
  destruct (image_source_of data) as [e|src] eqn:Hs.
  { split; reflexivity. }
  destruct (truthy src) eqn:Ht; cbn [negb]; [|split; reflexivity].
  rewrite (Hsame src) by (exists data; auto).
  split; reflexivity.
Qed.

Lemma response_depends_on_one_workflow_call_witness :
  analyze_image str_exn (client_returning (raw_with tied_predictions))
    image_request
  = analyze_image str_exn
      (client_of_workspace "civicrezo" (raw_with tied_predictions))
      image_request /\
  validate_image str_plain str_exn
    (client_returning (raw_with tied_predictions)) image_request
  = validate_image str_plain str_exn
      (client_of_workspace "civicrezo" (raw_with tied_predictions))
      image_request.
Proof.
  apply (response_depends_on_one_workflow_call str_plain str_exn
           (client_returning (raw_with tied_predictions))
           (client_of_workspace "civicrezo" (raw_with tied_predictions))
           image_request).
  intros src _. reflexivity.
Defined.

(** ** What the decision reads *)

(** X5.  Of the raw result the handlers read the prediction list of the
    first bundle and nothing else: two raw results holding the same list
    there (whatever their other bundles and other fields) give the same
    predictions, confidence, detected issue and decision. *)
Theorem decision_reads_only_the_prediction_list
  (r r' : pyval) (L : list pyval) :
  has_predictions r L -> has_predictions r' L ->
  analyze_extract r = analyze_extract r' /\
  validate_decide r = validate_decide r'.
Proof.
  intros (o & rest & o2 & -> & Ho & Hp) (o' & rest' & o2' & -> & Ho' & Hp').
  destruct (has_predictions_found o o2 (PList L) Ho Hp) as [Hf Hm].
  destruct (has_predictions_found o' o2' (PList L) Ho' Hp') as [Hf' Hm'].
  unfold analyze_extract, validate_decide.
  rewrite Hf, Hf'. cbn [bind]. rewrite Hm, Hm'. split; reflexivity.
Qed.

Lemma decision_reads_only_the_prediction_list_witness :
  analyze_extract (raw_with_noise tied_predictions)
  = analyze_extract (raw_with tied_predictions) /\
  validate_decide (raw_with_noise tied_predictions)
  = validate_decide (raw_with tied_predictions).
Proof.
  apply (decision_reads_only_the_prediction_list _ _ tied_predictions).
  - eexists _, _, _. repeat split; reflexivity.
  - eexists _, _, _. repeat split; reflexivity.
Defined.

Lemma py_max_keys_agree (L L' : list pyval) (b : pyval) :
  Forall is_record L -> Forall is_record L' ->
  map raw_confidence L = map raw_confidence L' ->
  py_max confidence_of L = inr b ->
  exists b', py_max confidence_of L' = inr b' /\
             raw_confidence b' = raw_confidence b.
Proof.
  intros HL HL' Hmap Hb.
  assert (Hc : forall l, Forall is_record l ->
            Forall (fun x => confidence_of x = inr (raw_confidence x)) l).
  { intros l Hl. eapply Forall_impl; [|exact Hl]. apply confidence_of_record. }
  pose proof (py_max_keys confidence_of raw_confidence L (Hc L HL)) as H1.
  pose proof (py_max_keys confidence_of raw_confidence L' (Hc L' HL')) as H2.
  rewrite Hmap, H2, Hb in H1. cbn [bind ret] in H1.
  destruct (py_max confidence_of L') as [e|b']; cbn [bind] in H1;
    [discriminate|].
  injection H1 as H1. eauto.
Qed.

(** X6.  The confidence and the decision of /validate depend on the
    confidences alone: two lists of prediction records with the same
    confidences, position by position, get the same confidence and the
    same [allowUpload], whatever their labels and other fields. *)
Theorem decision_depends_only_on_confidences
  (r r' : pyval) (L L' : list pyval) :
  has_predictions r L -> has_predictions r' L' ->
  Forall is_record L -> Forall is_record L' ->
  map raw_confidence L = map raw_confidence L' ->
  forall c d a,
    validate_decide r = inr (c, d, a) ->
    exists d', validate_decide r' = inr (c, d', a).
Proof.
  intros Hr Hr' HL HL' Hmap c d a Hd.
  destruct L as [|x xs].
  { destruct L' as [|x' xs']; [|discriminate].
    destruct (has_predictions_empty r Hr) as [_ H].
    destruct (has_predictions_empty r' Hr') as [_ H'].
    rewrite H in Hd. rewrite H'. inversion Hd; subst. eauto. }
  destruct L' as [|x' xs']; [discriminate|].
  destruct (decide_inv r c d a Hd) as (al & -> & Hs & Hc).
  destruct (extract_with_predictions r (x :: xs) Hr) as [_ Hsel];
    [discriminate | exact HL |].
  destruct (extract_with_predictions r' (x' :: xs') Hr') as [_ Hsel'];
    [discriminate | exact HL' |].
  rewrite Hsel in Hs.
  destruct (py_max confidence_of (x :: xs)) as [e|b] eqn:Hb;
    cbn [bind ret] in Hs; [discriminate|].
  injection Hs as <- <-.
  destruct (py_max_keys_agree _ _ b HL HL' Hmap Hb) as (b' & Hb' & Heq).
  exists (label_of b').
  rewrite validate_decide_select, Hsel', Hb'. cbn [bind ret].
  rewrite Heq, Hc. reflexivity.
Qed.

Lemma decision_depends_only_on_confidences_witness :
  exists d',
    validate_decide
      (raw_with [PDict [("label", PStr "garbage"); ("confidence", f_0_9);
                        ("x", PInt 12)]])
    = inr (f_0_9, d', PBool true).
Proof.
  apply (decision_depends_only_on_confidences
           (raw_with [PDict [("class", PStr "pothole"); ("confidence", f_0_9)]])
           (raw_with [PDict [("label", PStr "garbage"); ("confidence", f_0_9);
                             ("x", PInt 12)]])
           [PDict [("class", PStr "pothole"); ("confidence", f_0_9)]]
           [PDict [("label", PStr "garbage"); ("confidence", f_0_9);
                   ("x", PInt 12)]])
    with (d := PStr "pothole").
  - eexists _, _, _. repeat split; reflexivity.
  - eexists _, _, _. repeat split; reflexivity.
  - repeat constructor. eexists. reflexivity.
  - repeat constructor. eexists. reflexivity.
  - reflexivity.
  - reflexivity.
Defined.

(** ** Order and growth of the prediction list *)

(** The decision on a well-typed list, through any of its greatest
    confidences. *)
Lemma decide_by_maximum (r : pyval) (L : list pyval) :
  has_predictions r L -> L <> [] -> Forall well_typed_pred L ->
  exists c d allow,
    validate_decide r = inr (c, d, PBool allow) /\
    is_maximum c (map raw_confidence L) /\
    is_number c = true /\
    (allow = true <-> py_le threshold c).
Proof.
  intros Hr Hne HL.
  destruct (decide_on_predictions r L Hr Hne HL)
    as (l1 & b & l2 & allow & HLeq & H1 & H2 & _ & Hd & Hallow).
  pose proof (first_maximum_is_maximum L l1 l2 b HL HLeq H1 H2) as Hb.
  exists (raw_confidence b), (label_of b), allow. repeat split; auto;
    try apply Hb; try apply Hallow.
  apply is_real_number, (well_typed_confidences L); [exact HL | apply Hb].
Qed.

(** X7.  The order of the predictions does not change the decision:
    on two well-typed lists that are permutations of each other /validate
    reports the same [allowUpload] and confidences that are equal as
    numbers. *)
Theorem decision_ignores_prediction_order
  (r r' : pyval) (L L' : list pyval) :
  Permutation L L' ->
  has_predictions r L -> has_predictions r' L' ->
  Forall well_typed_pred L ->
  exists c c' d d' allow,
    validate_decide r = inr (c, d, PBool allow) /\
    validate_decide r' = inr (c', d', PBool allow) /\
    py_le c c' /\ py_le c' c.
Proof.
  intros HP Hr Hr' HL.
  assert (HL' : Forall well_typed_pred L').
  { apply Forall_forall. intros x Hx.
    apply (proj1 (Forall_forall _ L) HL).
    apply Permutation_sym in HP. now apply (Permutation_in x HP). }
  destruct L as [|x xs].
  { apply Permutation_nil in HP. subst L'.
    destruct (has_predictions_empty r Hr) as [_ H].
    destruct (has_predictions_empty r' Hr') as [_ H'].
    exists (PInt 0), (PInt 0), PNone, PNone, false.
    repeat split; auto. }
  assert (Hne' : L' <> []).
  { intros ->. apply Permutation_sym, Permutation_nil in HP. discriminate. }
  assert (Hne : x :: xs <> []) by discriminate.
  destruct (decide_by_maximum r _ Hr Hne HL)
    as (c & d & al & Hd & Hm & Nc & Hal).
  destruct (decide_by_maximum r' _ Hr' Hne' HL')
    as (c' & d' & al' & Hd' & Hm' & Nc' & Hal').
  assert (Hm2 : is_maximum c' (map raw_confidence (x :: xs))).
  { destruct Hm' as [Hin Hall]. split.
    - apply (Permutation_in c' (Permutation_sym (Permutation_map _ HP)) Hin).
    - intros k Hk. apply Hall.
      apply (Permutation_in k (Permutation_map _ HP) Hk). }
  destruct (maximum_unique _ _ _ Hm Hm2) as [Hcc' Hc'c].
  assert (Nt : is_number threshold = true) by reflexivity.
  assert (al' = al).
  { destruct al, al'; auto.
    - apply (proj2 Hal'). apply py_le_trans with c; auto. now apply Hal.
    - symmetry. apply (proj2 Hal). apply py_le_trans with c'; auto.
      now apply Hal'. }
  subst al'. exists c, c', d, d', al. auto.
Qed.

Lemma decision_ignores_prediction_order_witness :
  exists c c' d d' allow,
    validate_decide (raw_with tied_predictions) = inr (c, d, PBool allow) /\
    validate_decide (raw_with (rev tied_predictions))
    = inr (c', d', PBool allow) /\
    py_le c c' /\ py_le c' c.
Proof.
  apply (decision_ignores_prediction_order _ _ tied_predictions
           (rev tied_predictions)).
  - apply Permutation_rev.
  - eexists _, _, _. repeat split; reflexivity.
  - eexists _, _, _. repeat split; reflexivity.
  - repeat constructor; eexists; reflexivity.
Defined.

(** Reversing the tied list changes the label that is reported, not the
    decision. *)
Example reversed_tie_reports_other_label :
  validate_decide (raw_with tied_predictions)
  = inr (f_0_9, PStr "pothole", PBool true) /\
  validate_decide (raw_with (rev tied_predictions))
  = inr (f_0_9, PStr "garbage", PBool true).
Proof. split; reflexivity. Qed.

(** X8.  More predictions never revoke an upload: when /validate allows
    the upload on a list, it allows it on every well-typed list that
    contains all the predictions of the first, with a confidence at
    least as great. *)
Theorem more_predictions_never_revoke
  (r r' : pyval) (L L' : list pyval) :
  incl L L' -> Forall well_typed_pred L' ->
  has_predictions r L -> has_predictions r' L' ->
  forall c d,
    validate_decide r = inr (c, d, PBool true) ->
    exists c' d',
      validate_decide r' = inr (c', d', PBool true) /\ py_le c c'.
Proof.
  intros Hincl HL' Hr Hr' c d Hd.
  assert (HL : Forall well_typed_pred L).
  { apply Forall_forall. intros x Hx.
    apply (proj1 (Forall_forall _ L') HL'). now apply Hincl. }
  destruct L as [|x xs].
  { destruct (has_predictions_empty r Hr) as [_ H].
    rewrite H in Hd. discriminate. }
  assert (Hne : x :: xs <> []) by discriminate.
  assert (Hne' : L' <> []).
  { intros ->. apply (Hincl x). now left. }
  destruct (decide_by_maximum r _ Hr Hne HL)
    as (c0 & d0 & al & Hd0 & Hm & Nc & Hal).
  rewrite Hd in Hd0. injection Hd0 as <- <- <-.
  destruct (decide_by_maximum r' _ Hr' Hne' HL')
    as (c' & d' & al' & Hd' & Hm' & Nc' & Hal').
  assert (Hcc' : py_le c c').
  { apply Hm'. destruct Hm as [Hin _].
    apply in_map_iff in Hin. destruct Hin as (p & <- & Hp).
    apply in_map. now apply Hincl. }
  assert (al' = true).
  { apply Hal'. apply py_le_trans with c; auto. now apply Hal. }
  subst al'. eauto.
Qed.

Lemma more_predictions_never_revoke_witness :
  exists c' d',
    validate_decide
      (raw_with (PDict [("class", PStr "sign"); ("confidence", f_0_69999)]
                 :: tied_predictions))
    = inr (c', d', PBool true) /\ py_le f_0_9 c'.
Proof.
  apply (more_predictions_never_revoke
           (raw_with tied_predictions)
           (raw_with (PDict [("class", PStr "sign");
                             ("confidence", f_0_69999)]
                      :: tied_predictions))
           tied_predictions
           (PDict [("class", PStr "sign"); ("confidence", f_0_69999)]
            :: tied_predictions))
    with (d := PStr "pothole").
  - intros x Hx. now right.
  - repeat constructor; eexists; reflexivity.
  - eexists _, _, _. repeat split; reflexivity.
  - eexists _, _, _. repeat split; reflexivity.
  - reflexivity.
Defined.

(** ** What backs an allowed upload *)

Lemma select_member (r c d : pyval) :
  validate_select r = inr (c, d) ->
  (c = PInt 0 /\ d = PNone) \/
  (exists L p,
      has_predictions r L /\ In p L /\ is_record p /\
      c = raw_confidence p /\ d = label_of p).
Proof.
  destruct (extract_shape r)
    as [[_ ->] | [[_ (e2 & ->)] | (L & Hr & Hne & Hrec)]].
  - intros H. inversion H; subst. now left.
  - discriminate.
  - destruct (extract_with_predictions r L Hr Hne Hrec) as [_ ->].
    destruct (py_max confidence_of L) as [e|b] eqn:Hb; cbn [bind ret];
      [discriminate|].
    intros H. inversion H; subst. right. exists L, b.
    apply py_max_member in Hb. repeat split; auto.
    now apply (proj1 (Forall_forall is_record L) Hrec).
Qed.

(** X9.  /validate never allows an upload on its initial values: a
    response with [allowUpload] true comes from a workflow result whose
    prediction list holds a record with the reported confidence (at
    least 0.7) and the reported label. *)
Theorem allowed_upload_has_a_backing_prediction
  py_str exn_str run_workflow (req : M pyval) :
  let v := validate_image py_str exn_str run_workflow req in
  field "allowUpload" v = Some (PBool true) ->
  exists src r L p,
    has_image_source req src /\
    workflow_yields run_workflow src (inr r) /\
    has_predictions r L /\ In p L /\ is_record p /\
    field "confidence" v = Some (raw_confidence p) /\
    field "detectedIssue" v = Some (label_of p) /\
    py_le threshold (raw_confidence p).
Proof.
  intros v. unfold v. rewrite validate_image_cases.
  destruct req as [e|data]; [discriminate|].
  destruct (image_source_of data) as [e|src] eqn:Hs; [discriminate|].
  destruct (truthy src) eqn:Ht; cbn [negb]; [|discriminate].
  destruct (run_workflow _ _ _ _) as [e|r] eqn:Hw; [discriminate|].
  destruct (validate_decide r) as [e|[[c d] a]] eqn:Hd; [discriminate|].
  intros H.
  change (field "allowUpload" (validate_success py_str c d a))
    with (Some a) in H.
  injection H as ->.
  destruct (decide_inv r c d _ Hd) as (b & [= <-] & Hsel & Hc).
  destruct (select_member r c d Hsel)
    as [[-> ->] | (L & p & Hr & Hin & Hrec & -> & ->)].
  - discriminate Hc.
  - exists src, r, L, p. repeat split; auto.
    exists data. auto.
Qed.

Lemma allowed_upload_has_a_backing_prediction_witness :
  let v :=
    validate_image str_plain str_exn
      (client_returning (raw_with tied_predictions)) image_request in
  exists src r L p,
    has_image_source image_request src /\
    workflow_yields (client_returning (raw_with tied_predictions)) src (inr r) /\
    has_predictions r L /\ In p L /\ is_record p /\
    field "confidence" v = Some (raw_confidence p) /\
    field "detectedIssue" v = Some (label_of p) /\
    py_le threshold (raw_confidence p).
Proof.
  apply (allowed_upload_has_a_backing_prediction str_plain str_exn
           (client_returning (raw_with tied_predictions)) image_request).
  reflexivity.
Defined.

(** ** The two handlers on one request *)

(** X10.  Whenever /validate answers 200, /analyze answers 200 to the
    same request with the same confidence, whatever the raw result
    holds. *)
Theorem validate_success_implies_analyze_success
  py_str exn_str run_workflow (req : M pyval) :
  let a := analyze_image exn_str run_workflow req in
  let v := validate_image py_str exn_str run_workflow req in
  status v = 200 ->
  status a = 200 /\
  exists c, field "confidence" v = Some c /\ field "confidence" a = Some c.
Proof.
  intros a v. unfold a, v. rewrite validate_image_cases, analyze_image_cases.
  destruct req as [e|data]; [discriminate|].
  destruct (image_source_of data) as [e|src] eqn:Hs; [discriminate|].
  destruct (truthy src) eqn:Ht; cbn [negb]; [|discriminate].
  rewrite (has_source_truthy_body data src Hs Ht). cbn [negb].
  destruct (run_workflow _ _ _ _) as [e|r] eqn:Hw; [discriminate|].
  destruct (validate_decide r) as [e|[[c d] al]] eqn:Hd; [discriminate|].
  intros _.
  destruct (decide_inv r c d al Hd) as (b & _ & Hsel & _).
  destruct (select_then_extract r c d Hsel) as (ps & ->).
  split; [reflexivity|]. exists c. split; reflexivity.
Qed.

Lemma validate_success_implies_analyze_success_witness :
  let a :=
    analyze_image str_exn (client_returning (raw_with_noise tied_predictions))
      image_request in
  let v :=
    validate_image str_plain str_exn
      (client_returning (raw_with_noise tied_predictions)) image_request in
  status a = 200 /\
  exists c, field "confidence" v = Some c /\ field "confidence" a = Some c.
Proof.
  apply (validate_success_implies_analyze_success str_plain str_exn
           (client_returning (raw_with_noise tied_predictions))
           image_request).
  reflexivity.
Defined.

(** X11.  The converse fails only on a confidence that is not a number:
    when /analyze answers 200 with such a confidence (a null, a string,
    a list or an object), the threshold test of /validate raises a
    [TypeError] and it answers 500, with confidence 0 and [allowUpload]
    false. *)
Theorem non_numeric_confidence_is_server_error
  py_str exn_str run_workflow (req : M pyval) (c : pyval) :
  let a := analyze_image exn_str run_workflow req in
  let v := validate_image py_str exn_str run_workflow req in
  status a = 200 -> field "confidence" a = Some c -> is_number c = false ->
  v = (jsonify [("success", PBool false);
                ("error",
                 PStr (exn_str (TypeError_order OpGe (type_of c) TFloat)));
                ("confidence", PInt 0);
                ("allowUpload", PBool false)], 500).
Proof.
  intros a v. unfold a, v. rewrite validate_image_cases, analyze_image_cases.
  destruct req as [e|data]; [discriminate|].
  destruct (truthy data) eqn:Htd; cbn [negb]; [|discriminate].
  destruct (image_source_of data) as [e|src] eqn:Hs; [discriminate|].
  destruct (truthy src) eqn:Ht; cbn [negb]; [|discriminate].
  destruct (run_workflow _ _ _ _) as [e|r] eqn:Hw; [discriminate|].
  destruct (analyze_extract r) as [e|[ps c0]] eqn:He; [discriminate|].
  intros _ H Hn.
  change (field "confidence" (analyze_success ps c0 r)) with (Some c0) in H.
  injection H as ->.
  destruct (extract_then_select r c ps He) as (d & Hsel).
  rewrite validate_decide_select, Hsel. cbn [bind].
  assert (Hc : py_compare OpGe c threshold
               = inl (TypeError_order OpGe (type_of c) TFloat)).
  { destruct c; try discriminate Hn; reflexivity. }
  rewrite Hc. reflexivity.
Qed.

Lemma non_numeric_confidence_is_server_error_witness :
  let r := raw_with [PDict [("class", PStr "pothole");
                            ("confidence", PStr "high")]] in
  validate_image str_plain str_exn (client_returning r) image_request
  = (jsonify [("success", PBool false);
              ("error",
               PStr "'>=' not supported between instances of 'str' and 'float'");
              ("confidence", PInt 0);
              ("allowUpload", PBool false)], 500).
Proof.
  intros r.
  apply (non_numeric_confidence_is_server_error str_plain str_exn
           (client_returning r) image_request (PStr "high"));
    reflexivity.
Defined.

(** ** NaN confidences *)

Lemma gt_with_nan (a b : pyval) :
  is_number a = true -> is_number b = true ->
  is_nan a = true \/ is_nan b = true ->
  py_compare OpGt a b = inr false /\ py_compare OpGe a b = inr false.
Proof.
  intros (x & Hx)%is_number_val (y & Hy)%is_number_val Hnan.
  rewrite (py_compare_num OpGt a b x y Hx Hy),
    (py_compare_num OpGe a b x y Hx Hy).
  unfold is_nan in Hnan. rewrite Hx, Hy in Hnan.
  destruct Hnan as [H | H].
  - destruct x; try discriminate. split; reflexivity.
  - destruct y; try discriminate. destruct x; split; reflexivity.
Qed.

Lemma max_loop_after_nan (key : pyval -> M pyval) (kf : pyval -> pyval)
  (l : list pyval) (best bestk : pyval) :
  is_number bestk = true -> is_nan bestk = true ->
  Forall (fun x => key x = inr (kf x) /\ is_number (kf x) = true) l ->
  max_loop key best bestk l = inr best.
Proof.
  intros Nb Hb. induction 1 as [|x xs [Hk Nx] _ IH]; simpl; [reflexivity|].
  rewrite Hk. cbn [bind].
  destruct (gt_with_nan (kf x) bestk Nx Nb (or_intror Hb)) as [-> _].
  cbn [bind]. exact IH.
Qed.

Lemma max_loop_skips_nan (key : pyval -> M pyval) (kf : pyval -> pyval)
  (l : list pyval) :
  Forall (fun x => key x = inr (kf x) /\ is_number (kf x) = true) l ->
  forall best bestk,
    is_number bestk = true ->
    max_loop key best bestk l
    = max_loop key best bestk (filter (fun q => negb (is_nan (kf q))) l).
Proof.
  induction 1 as [|x xs [Hk Nx] _ IH]; intros best bestk Nb; [reflexivity|].
  simpl. rewrite Hk. cbn [bind].
  destruct (is_nan (kf x)) eqn:Hn; cbn [negb].
  - destruct (gt_with_nan (kf x) bestk Nx Nb (or_introl Hn)) as [-> _].
    cbn [bind]. now apply IH.
  - simpl. rewrite Hk. cbn [bind].
    destruct (py_compare OpGt (kf x) bestk) as [e|[]]; cbn [bind];
      [reflexivity | now apply IH | now apply IH].
Qed.

Lemma numeric_records_keyed (L : list pyval) :
  Forall is_record L -> Forall numeric_pred L ->
  Forall (fun x => confidence_of x = inr (raw_confidence x) /\
                   is_number (raw_confidence x) = true) L.
Proof.
  intros HL HN. apply Forall_forall. intros x Hx. split.
  - apply confidence_of_record. now apply (proj1 (Forall_forall _ L) HL).
  - now apply (proj1 (Forall_forall _ L) HN).
Qed.

(** X12.  A NaN confidence in the first prediction wins: nothing
    compares greater than it, so it is the confidence both handlers
    report, and /validate denies the upload, whatever the confidences of
    the predictions that follow. *)
Theorem leading_nan_denies_upload
  (r p : pyval) (ps : list pyval) :
  has_predictions r (p :: ps) ->
  Forall is_record (p :: ps) -> Forall numeric_pred (p :: ps) ->
  is_nan (raw_confidence p) = true ->
  validate_decide r = inr (raw_confidence p, label_of p, PBool false) /\
  analyze_extract r = inr (map normalized (p :: ps), raw_confidence p).
Proof.
  intros Hr HL HN Hnan.
  assert (Hne : p :: ps <> []) by discriminate.
  destruct (extract_with_predictions r _ Hr Hne HL) as [Ha Hs].
  pose proof (numeric_records_keyed _ HL HN) as Hk.
  inversion Hk as [|? ? [Hkp Np] Hks]; subst.
  assert (Hmax : py_max confidence_of (p :: ps) = inr p).
  { simpl. rewrite Hkp. cbn [bind].
    now apply (max_loop_after_nan confidence_of raw_confidence). }
  rewrite Hmax in Ha, Hs. cbn [bind ret] in Ha, Hs.
  split; [|exact Ha].
  rewrite validate_decide_select, Hs. cbn [bind ret].
  destruct (gt_with_nan (raw_confidence p) threshold Np eq_refl
              (or_introl Hnan)) as [_ ->].
  reflexivity.
Qed.

Lemma leading_nan_denies_upload_witness :
  let p := PDict [("class", PStr "crack"); ("confidence", nan)] in
  validate_decide (raw_with (p :: tied_predictions))
  = inr (nan, PStr "crack", PBool false) /\
  analyze_extract (raw_with (p :: tied_predictions))
  = inr (map normalized (p :: tied_predictions), nan).
Proof.
  intros p.
  apply (leading_nan_denies_upload (raw_with (p :: tied_predictions)) p
           tied_predictions).
  - eexists _, _, _. repeat split; reflexivity.
  - repeat constructor; eexists; reflexivity.
  - repeat constructor.
  - reflexivity.
Defined.

(** X13.  A NaN confidence after the first prediction is never selected:
    the handlers answer as if the predictions carrying one were not in
    the list (apart from the normalized list of /analyze, which keeps
    them). *)
Theorem later_nan_is_ignored
  (r r' p : pyval) (ps : list pyval) :
  let kept := filter (fun q => negb (is_nan (raw_confidence q))) ps in
  has_predictions r (p :: ps) -> has_predictions r' (p :: kept) ->
  Forall is_record (p :: ps) -> Forall numeric_pred (p :: ps) ->
  validate_decide r = validate_decide r' /\
  forall N c, analyze_extract r = inr (N, c) ->
              exists N', analyze_extract r' = inr (N', c).
Proof.
  intros kept Hr Hr' HL HN.
  assert (Hne : p :: ps <> []) by discriminate.
  assert (Hne' : p :: kept <> []) by discriminate.
  assert (HL' : Forall is_record (p :: kept)).
  { inversion HL; subst. constructor; auto.
    apply Forall_forall. intros x Hx. apply filter_In in Hx.
    now apply (proj1 (Forall_forall _ ps) H2). }
  destruct (extract_with_predictions r _ Hr Hne HL) as [Ha Hs].
  destruct (extract_with_predictions r' _ Hr' Hne' HL') as [Ha' Hs'].
  pose proof (numeric_records_keyed _ HL HN) as Hk.
  inversion Hk as [|? ? [Hkp Np] Hks]; subst.
  assert (Hmax : py_max confidence_of (p :: ps)
                 = py_max confidence_of (p :: kept)).
  { simpl. rewrite Hkp. cbn [bind].
    now apply (max_loop_skips_nan confidence_of raw_confidence). }
  split.
  - rewrite !validate_decide_select, Hs, Hs', Hmax. reflexivity.
  - intros N c. rewrite Ha, Ha', Hmax.
    destruct (py_max confidence_of (p :: kept)) as [e|b]; cbn [bind ret];
      [discriminate|].
    intros H. inversion H; subst. eauto.
Qed.

Lemma later_nan_is_ignored_witness :
  let q := PDict [("class", PStr "sign"); ("confidence", nan)] in
  validate_decide
    (raw_with (PDict [("class", PStr "crack"); ("confidence", f_0_82)]
               :: [q; PDict [("class", PStr "pothole"); ("confidence", f_0_9)]]))
  = validate_decide
      (raw_with (PDict [("class", PStr "crack"); ("confidence", f_0_82)]
                 :: [PDict [("class", PStr "pothole"); ("confidence", f_0_9)]])).
Proof.
  intros q.
  apply (later_nan_is_ignored
           (raw_with (PDict [("class", PStr "crack"); ("confidence", f_0_82)]
                      :: [q; PDict [("class", PStr "pothole");
                                    ("confidence", f_0_9)]]))
           (raw_with (PDict [("class", PStr "crack"); ("confidence", f_0_82)]
                      :: [PDict [("class", PStr "pothole");
                                 ("confidence", f_0_9)]]))
           (PDict [("class", PStr "crack"); ("confidence", f_0_82)])
           [q; PDict [("class", PStr "pothole"); ("confidence", f_0_9)]]).
  - eexists _, _, _. repeat split; reflexivity.
  - eexists _, _, _. repeat split; reflexivity.
  - repeat constructor; eexists; reflexivity.
  - repeat constructor.
Defined.

(** ** The shape of the responses *)

Lemma extract_result_shape (r c : pyval) (N : list pyval) :
  analyze_extract r = inr (N, c) ->
  Forall two_field_record N /\
  (N = [] -> c = PInt 0) /\
  (N <> [] -> In (Some c) (map (field_of "confidence") N)).
Proof.
  destruct (extract_shape r)
    as [[-> _] | [[(e1 & ->) _] | (L & Hr & Hne & Hrec)]].
  - intros H. inversion H; subst. repeat split; auto. congruence.
  - discriminate.
  - destruct (extract_with_predictions r L Hr Hne Hrec) as [-> _].
    destruct (py_max confidence_of L) as [e|b] eqn:Hb; cbn [bind ret];
      [discriminate|].
    intros H. inversion H; subst. split; [|split].
    + apply Forall_forall. intros n Hn. apply in_map_iff in Hn.
      destruct Hn as (p & <- & _). eexists _, _. reflexivity.
    + intros HN. apply map_eq_nil in HN. congruence.
    + intros _. apply py_max_member in Hb.
      rewrite map_map. apply in_map_iff. exists b. split; [reflexivity | exact Hb].
Qed.

(** X14.  Every 200 response of /analyze, on any raw result: it hands
    back the raw result of the collaborator unchanged, every entry of
    [predictions] is a record of exactly [class] and [confidence], and
    the reported confidence is 0 for an empty list and else the
    confidence of one of the entries. *)
Theorem analyze_success_shape exn_str run_workflow (req : M pyval) :
  let a := analyze_image exn_str run_workflow req in
  status a = 200 ->
  exists src r N c,
    has_image_source req src /\
    workflow_yields run_workflow src (inr r) /\
    body a = jsonify [("success", PBool true);
                      ("predictions", PList N);
                      ("confidence", c);
                      ("raw_result", r)] /\
    Forall two_field_record N /\
    (N = [] -> c = PInt 0) /\
    (N <> [] -> In (Some c) (map (field_of "confidence") N)).
Proof.
  intros a. unfold a. rewrite analyze_image_cases.
  destruct req as [e|data]; [discriminate|].
  destruct (truthy data) eqn:Htd; cbn [negb]; [|discriminate].
  destruct (image_source_of data) as [e|src] eqn:Hs; [discriminate|].
  destruct (truthy src) eqn:Ht; cbn [negb]; [|discriminate].
  destruct (run_workflow _ _ _ _) as [e|r] eqn:Hw; [discriminate|].
  destruct (analyze_extract r) as [e|[N c]] eqn:He; [discriminate|].
  intros _. exists src, r, N, c.
  destruct (extract_result_shape r c N He) as (H1 & H2 & H3).
  repeat split; auto. exists data. auto.
Qed.

Lemma analyze_success_shape_witness :
  let a :=
    analyze_image str_exn (client_returning (raw_with_noise tied_predictions))
      image_request in
  exists src r N c,
    has_image_source image_request src /\
    workflow_yields (client_returning (raw_with_noise tied_predictions))
      src (inr r) /\
    body a = jsonify [("success", PBool true);
                      ("predictions", PList N);
                      ("confidence", c);
                      ("raw_result", r)] /\
    Forall two_field_record N /\
    (N = [] -> c = PInt 0) /\
    (N <> [] -> In (Some c) (map (field_of "confidence") N)).
Proof.
  apply (analyze_success_shape str_exn
           (client_returning (raw_with_noise tied_predictions))
           image_request).
  reflexivity.
Defined.

(** X15.  Every response of the two handlers, whatever the request and
    the collaborator: the status is 200, 400 or 500; [success] is true
    exactly on 200; a 400 or 500 body carries an [error] text and a 200
    body carries none.  In /validate, [modelConfidence] repeats
    [confidence] on 200 and is absent otherwise, and [allowUpload] is a
    boolean on 200 and 500 and absent on 400. *)
Theorem responses_are_well_formed
  py_str exn_str run_workflow (req : M pyval) :
  let a := analyze_image exn_str run_workflow req in
  let v := validate_image py_str exn_str run_workflow req in
  (status a = 200 \/ status a = 400 \/ status a = 500) /\
  (status v = 200 \/ status v = 400 \/ status v = 500) /\
  field "success" a = Some (PBool (status a =? 200)) /\
  field "success" v = Some (PBool (status v =? 200)) /\
  (if status a =? 200 then field "error" a = None
   else exists text, field "error" a = Some (PStr text)) /\
  (if status v =? 200 then field "error" v = None
   else exists text, field "error" v = Some (PStr text)) /\
  field "modelConfidence" v
  = (if status v =? 200 then field "confidence" v else None) /\
  (if status v =? 400 then field "allowUpload" v = None
   else exists b, field "allowUpload" v = Some (PBool b)).
Proof.
  intros a v. unfold a, v. rewrite validate_image_cases, analyze_image_cases.
  destruct req as [e|data].
  { simpl; repeat split; auto; eexists; reflexivity. }
  destruct (image_source_of data) as [e|src] eqn:Hs.
  { destruct (truthy data); simpl; repeat split; auto; eexists; reflexivity. }
  destruct (truthy src) eqn:Ht; cbn [negb].
  2:{ destruct (truthy data); simpl; repeat split; auto;
        eexists; reflexivity. }
  rewrite (has_source_truthy_body data src Hs Ht). cbn [negb].
  destruct (run_workflow _ _ _ _) as [e|r].
  { simpl; repeat split; auto; eexists; reflexivity. }
  destruct (analyze_extract r) as [e|[N c]];
    destruct (validate_decide r) as [e'|[[c' d] al]] eqn:Hd;
    try (destruct (decide_inv r c' d al Hd) as (b & -> & _ & _));
    simpl; repeat split; auto; eexists; reflexivity.
Qed.

(** ** Predictions without a confidence *)

Lemma max_loop_all_zero (key : pyval -> M pyval) (l : list pyval)
  (best : pyval) :
  Forall (fun x => key x = inr (PInt 0)) l ->
  max_loop key best (PInt 0) l = inr best.
Proof.
  induction 1 as [|x xs Hk _ IH]; simpl; [reflexivity|].
  rewrite Hk. cbn [bind]. exact IH.
Qed.

(** X16.  Predictions that carry no [confidence] count as 0: on a list
    of such records both handlers report the confidence 0, /validate
    selects the first record for the detected issue, and the upload is
    denied. *)
Theorem missing_confidence_denies_upload
  (r p : pyval) (ps : list pyval) :
  has_predictions r (p :: ps) -> Forall lacks_confidence (p :: ps) ->
  validate_decide r = inr (PInt 0, label_of p, PBool false) /\
  analyze_extract r = inr (map normalized (p :: ps), PInt 0).
Proof.
  intros Hr HL.
  assert (Hne : p :: ps <> []) by discriminate.
  assert (Hrec : Forall is_record (p :: ps)).
  { eapply Forall_impl; [|exact HL]. intros q (d & -> & _). now exists d. }
  assert (Hk : Forall (fun x => confidence_of x = inr (PInt 0)) (p :: ps)).
  { eapply Forall_impl; [|exact HL]. intros q (d & -> & Hd).
    unfold confidence_of. simpl. now rewrite Hd. }
  destruct (extract_with_predictions r _ Hr Hne Hrec) as [Ha Hs].
  inversion Hk as [|? ? Hkp Hks]; subst.
  assert (Hmax : py_max confidence_of (p :: ps) = inr p).
  { simpl. rewrite Hkp. cbn [bind]. now apply max_loop_all_zero. }
  assert (Hp : raw_confidence p = PInt 0).
  { inversion HL as [|? ? (d & -> & Hd) _]; subst. simpl. now rewrite Hd. }
  rewrite Hmax in Ha, Hs. cbn [bind ret] in Ha, Hs. rewrite Hp in Ha, Hs.
  split; [|exact Ha].
  rewrite validate_decide_select, Hs. reflexivity.
Qed.

Lemma missing_confidence_denies_upload_witness :
  let p := PDict [("class", PStr "pothole")] in
  let q := PDict [("label", PStr "crack")] in
  validate_decide (raw_with [p; q])
  = inr (PInt 0, PStr "pothole", PBool false) /\
  analyze_extract (raw_with [p; q]) = inr (map normalized [p; q], PInt 0).
Proof.
  intros p q.
  apply (missing_confidence_denies_upload (raw_with [p; q]) p [q]).
  - eexists _, _, _. repeat split; reflexivity.
  - repeat constructor; eexists; split; reflexivity.
Defined.

(** ** Shapes that raise *)

(** X17.  A first bundle, or an [output2] in it, that is null, a boolean
    or a number makes the membership test raise a [TypeError]: both
    handlers answer 500, /validate with confidence 0 and [allowUpload]
    false. *)
Theorem non_container_bundle_is_server_error
  py_str exn_str run_workflow (req : M pyval) (src output bad : pyval)
  (rest : list pyval) :
  has_image_source req src ->
  workflow_yields run_workflow src (inr (PList (output :: rest))) ->
  not_a_container bad ->
  output = bad \/
  (exists o, output = PDict o /\ dict_get "output2" o = Some bad) ->
  let e := TypeError_in (type_of bad) in
  analyze_image exn_str run_workflow req
  = (jsonify [("success", PBool false);
              ("error", PStr (exn_str e))], 500) /\
  validate_image py_str exn_str run_workflow req
  = (jsonify [("success", PBool false);
              ("error", PStr (exn_str e));
              ("confidence", PInt 0);
              ("allowUpload", PBool false)], 500).
Proof.
  intros Hreq Hw Hbad Hout e.
  rewrite (analyze_image_on _ _ _ _ _ Hreq Hw).
  rewrite (validate_image_on _ _ _ _ _ _ Hreq Hw).
  assert (Hf : has_model_predictions output = inl e).
  { unfold has_model_predictions.
    destruct Hout as [-> | (o & -> & Ho)].
    - destruct bad; simpl in Hbad; try contradiction; reflexivity.
    - simpl. rewrite Ho. cbn [bind].
      destruct bad; simpl in Hbad; try contradiction; reflexivity. }
  unfold analyze_extract, validate_decide. rewrite Hf. split; reflexivity.
Qed.

Lemma non_container_bundle_is_server_error_witness :
  let r := PList [PDict [("output2", PNone)]] in
  analyze_image str_exn (client_returning r) image_request
  = (jsonify [("success", PBool false);
              ("error", PStr "argument of type 'NoneType' is not iterable")],
     500) /\
  validate_image str_plain str_exn (client_returning r) image_request
  = (jsonify [("success", PBool false);
              ("error", PStr "argument of type 'NoneType' is not iterable");
              ("confidence", PInt 0);
              ("allowUpload", PBool false)], 500).
Proof.
  intros r.
  apply (non_container_bundle_is_server_error str_plain str_exn
           (client_returning r) image_request (PStr "http://host/road.jpg")
           (PDict [("output2", PNone)]) PNone []).
  - exists (PDict [("image_url", PStr "http://host/road.jpg")]).
    repeat split; reflexivity.
  - reflexivity.
  - exact I.
  - right. eexists. split; reflexivity.
Defined.

(** X18.  One entry of the prediction list that is not a record (a
    string, a number, a null, a nested list) makes both handlers answer
    500, whatever the other entries hold. *)
Theorem non_record_prediction_is_server_error
  py_str exn_str run_workflow (req : M pyval) (src r x : pyval)
  (L : list pyval) :
  has_image_source req src ->
  workflow_yields run_workflow src (inr r) ->
  has_predictions r L -> In x L -> ~ is_record x ->
  let a := analyze_image exn_str run_workflow req in
  let v := validate_image py_str exn_str run_workflow req in
  status a = 500 /\ status v = 500 /\
  field "confidence" v = Some (PInt 0) /\
  field "allowUpload" v = Some (PBool false).
Proof.
  intros Hreq Hw Hr Hx Nx a v. unfold a, v.
  rewrite (analyze_image_on _ _ _ _ _ Hreq Hw).
  rewrite (validate_image_on _ _ _ _ _ _ Hreq Hw).
  destruct Hr as (o & rest & o2 & -> & Ho & Hp).
  destruct (has_predictions_found o o2 (PList L) Ho Hp) as [Hf Hm].
  assert (Ht : truthy (PList L) = true) by (destruct L; [destruct Hx | reflexivity]).
  destruct (not_record_raises x Nx) as [Hc Hn].
  destruct (mapM_raises normalize_pred L) as (e1 & He1); [eauto|].
  destruct (py_max_key_raises confidence_of L) as (e2 & He2); [eauto|].
  unfold analyze_extract, validate_decide.
  rewrite Hf. cbn [bind]. rewrite Hm. cbn [bind]. rewrite Ht.
  cbn [bind py_iter ret]. rewrite He1, He2. repeat split.
Qed.

Lemma non_record_prediction_is_server_error_witness :
  let L := PStr "pothole" :: tied_predictions in
  let a := analyze_image str_exn (client_returning (raw_with L)) image_request in
  let v :=
    validate_image str_plain str_exn (client_returning (raw_with L))
      image_request in
  status a = 500 /\ status v = 500 /\
  field "confidence" v = Some (PInt 0) /\
  field "allowUpload" v = Some (PBool false).
Proof.
  intros L.
  apply (non_record_prediction_is_server_error str_plain str_exn
           (client_returning (raw_with L)) image_request
           (PStr "http://host/road.jpg") (raw_with L) (PStr "pothole") L).
  - exists (PDict [("image_url", PStr "http://host/road.jpg")]).
    repeat split; reflexivity.
  - reflexivity.
  - eexists _, _, _. repeat split; reflexivity.
  - left. reflexivity.
  - intros [d Hd]. discriminate.
Defined.
